(** * opensnitch: the eBPF DNS hook (daemon/dns/ebpfhook.go)

    A shallow embedding of [lookupSymbol] and [DnsListenerEbpf]: the symbol
    lookup, the derivation of the probed function from a probe's section
    name, the attachment loop with its success counter, the lifecycle of the
    listener, and the decoding of one perf-map record by the consumer
    goroutine. *)

From Stdlib Require Import List String Ascii ZArith Bool Lia.
From Stdlib Require Import Strings.Byte Numbers.DecimalString.
Import ListNotations.

Open Scope string_scope.
Open Scope list_scope.
Open Scope Z_scope.

(** ** Go values *)

(** A Go [error] built by [errors.New]; the sentinel errors of [io] and
    [debug/elf] are such values too. *)
Inductive error : Type :=
| errors_New (text : string).

(** The pair [(value, err)] a Go function returns, as a sum. *)
Inductive result (A : Type) : Type :=
| Ok (a : A)
| Err (err : error).
Arguments Ok {A} a.
Arguments Err {A} err.

Definition io_EOF : error := errors_New "EOF".
Definition io_ErrUnexpectedEOF : error := errors_New "unexpected EOF".

(** ** package strings *)

Module strings.

Fixpoint drop (n : nat) (s : string) : string :=
  match n, s with
  | O, _ => s
  | S _, EmptyString => EmptyString
  | S n', String _ s' => drop n' s'
  end.

(** [strings.Index(s, substr)]: position of the first occurrence, [None]
    for Go's [-1]. *)
Fixpoint Index (s substr : string) : option nat :=
  if String.prefix substr s then Some O
  else match s with
       | EmptyString => None
       | String _ s' => option_map S (Index s' substr)
       end.

Definition Contains (s substr : string) : bool :=
  match Index s substr with Some _ => true | None => false end.

(** [strings.Replace(s, old, new, 1)]: the first occurrence of [old] in [s]
    is replaced by [new]; [s] is returned as it is when there is none. *)
Fixpoint Replace1 (s old new : string) : string :=
  if String.prefix old s then new ++ drop (String.length old) s
  else match s with
       | EmptyString => EmptyString
       | String c s' => String c (Replace1 s' old new)
       end.

End strings.

(** ** package debug/elf, as far as the hook uses it *)

Record Symbol : Type := mkSymbol {
  Name : string;
  Value : Z            (* uint64 *)
}.

(** An opened ELF file: what its [Symbols()] method returns, the symbol
    table or an error (for instance [elf.ErrNoSymbols]). *)
Record elf_File : Type := mkFile {
  Symbols : result (list Symbol)
}.

Definition elf_ErrNoSymbols : error := errors_New "no symbol section".

(** ** lookupSymbol *)

(** The error of line 90: [fmt.Sprintf("Symbol: '%s' not found.", name)]. *)
Definition SymbolNotFound (symbolName : string) : error :=
  errors_New ("Symbol: '" ++ symbolName ++ "' not found.").

(** The [for _, symb := range symbols] loop of lines 85-89. *)
Fixpoint lookupSymbol_range (symbols : list Symbol) (symbolName : string)
  : result Z :=
  match symbols with
  | [] => Err (SymbolNotFound symbolName)
  | symb :: symbols' =>
      if String.eqb (Name symb) symbolName then Ok (Value symb)
      else lookupSymbol_range symbols' symbolName
  end.

Definition lookupSymbol (elffile : elf_File) (symbolName : string)
  : result Z :=
  match Symbols elffile with
  | Err err => Err err
  | Ok symbols => lookupSymbol_range symbols symbolName
  end.

(** ** The probed function of a uprobe (lines 120-121) *)

Record Uprobe : Type := mkUprobe {
  uprobe_Name : string
}.

Definition probeFunction_of (name : string) : string :=
  let probeFunction := strings.Replace1 name "uretprobe/" "" in
  strings.Replace1 probeFunction "uprobe/" "".

(** ** The world the hook runs in *)

Inductive level : Type := DEBUG | INFO | WARNING | ERROR.

(** An argument of a log call. *)
Inductive arg : Type :=
| a_string (s : string)
| a_error (err : error)
| a_int (n : Z)
| a_bytes (b : list byte).

Inductive os_Signal : Type := os_Interrupt | os_Kill.

(** What the hook does to the outside, in the order it does it. *)
Inductive effect : Type :=
| log (lvl : level) (format : string) (args : list arg)
| call_Load (path : string)
| call_Close
| call_AttachUprobe (uprobe : Uprobe) (path : string) (offset : Z)
| call_InitPerfMap (name : string)
| call_Notify
| go_consumer
| call_PollStart
| recv_sig (s : os_Signal)
| call_PollStop
| call_Track (ip host : string).

(** The libraries behind the hook: gobpf and the kernel (with a state [K] of
    their own), the dynamic linker, [debug/elf] and [net]. *)
Record Env (K : Type) : Type := mkEnv {
  bpf_Load : K -> K * option error;                 (* m.Load(nil) *)
  bpf_Close : K -> K;                               (* m.Close() *)
  C_find_libc : option string;                      (* NULL or l_name *)
  elf_Open : string -> result elf_File;
  bpf_IterUprobes : K -> list Uprobe;               (* in channel order *)
  bpf_AttachUprobe : Uprobe -> string -> Z -> K -> K * option error;
  bpf_InitPerfMap : K -> K * option error;
  bpf_PollStart : K -> K;
  bpf_PollStop : K -> K;
  os_sig : option os_Signal;                        (* the signal, if any *)
  IP_String : list byte -> string                   (* net.IP.String *)
}.
Arguments bpf_Load {K} e.
Arguments bpf_Close {K} e.
Arguments C_find_libc {K} e.
Arguments elf_Open {K} e.
Arguments bpf_IterUprobes {K} e.
Arguments bpf_AttachUprobe {K} e.
Arguments bpf_InitPerfMap {K} e.
Arguments bpf_PollStart {K} e.
Arguments bpf_PollStop {K} e.
Arguments os_sig {K} e.
Arguments IP_String {K} e.

Record World (K : Type) : Type := mkWorld {
  kern : K;
  trace : list effect
}.
Arguments mkWorld {K} kern trace.
Arguments kern {K} w.
Arguments trace {K} w.

(** State passing over the world. *)
Definition M (K A : Type) : Type := World K -> A * World K.

Definition ret {K A : Type} (a : A) : M K A := fun w => (a, w).

Definition bind {K A B : Type} (m : M K A) (f : A -> M K B) : M K B :=
  fun w => let (a, w') := m w in f a w'.

Notation "x <- c1 ;; c2" := (bind c1 (fun x => c2))
  (at level 61, c1 at next level, right associativity).
Notation "c1 ;; c2" := (bind c1 (fun _ => c2))
  (at level 61, right associativity).

Definition emit {K : Type} (e : effect) : M K unit :=
  fun w => (tt, mkWorld (kern w) (trace w ++ [e])).

Definition kernel {K A : Type} (f : K -> K * A) : M K A :=
  fun w => let (k, a) := f (kern w) in (a, mkWorld k (trace w)).

Definition kernel_ {K : Type} (f : K -> K) : M K unit :=
  fun w => (tt, mkWorld (f (kern w)) (trace w)).

Definition ask {K A : Type} (f : K -> A) : M K A :=
  fun w => (f (kern w), w).

(** The world [w] after the effects [es]. *)
Definition says {K : Type} (w : World K) (es : list effect) : World K :=
  mkWorld (kern w) (trace w ++ es).

Definition started_polling (tr : list effect) : Prop := In call_PollStart tr.

Definition nl : string := String (ascii_of_nat 10) EmptyString.

(** ** findLibc (lines 68-77) *)

Definition findLibc {K : Type} (env : Env K) : result string :=
  match C_find_libc env with
  | None => Err (errors_New "Could not find path to libc.so")
  | Some str => Ok str
  end.

(** ** The attachment loop (lines 118-133) *)

(** The log lines 124 and 129. *)
Definition symbol_warning (uprobe : Uprobe) (err : error) : effect :=
  log WARNING ("EBPF-DNS: Failed to find symbol for uprobe %s : %s" ++ nl)
    [a_string (uprobe_Name uprobe); a_error err].

Definition attach_error (uprobe : Uprobe) (err : error) : effect :=
  log ERROR ("EBPF-DNS: Failed to attach uprobe %s : %s" ++ nl)
    [a_string (uprobe_Name uprobe); a_error err].

(** [probes_attached] is a Go [int]; it counts at most one per declared probe,
    far below [2^63], so it is an unbounded [Z] here.
    The loop ends with [Ok probes_attached], or with [Err err] where line 130
    returns from the function. *)
Fixpoint attach_loop {K : Type} (env : Env K) (libc_elf : elf_File)
    (libcFile : string) (uprobes : list Uprobe) (probes_attached : Z)
  : M K (result Z) :=
  match uprobes with
  | [] => ret (Ok probes_attached)
  | uprobe :: rest =>
      let probeFunction := probeFunction_of (uprobe_Name uprobe) in
      match lookupSymbol libc_elf probeFunction with
      | Err err =>
          emit (symbol_warning uprobe err) ;;
          attach_loop env libc_elf libcFile rest probes_attached
      | Ok offset =>
          emit (call_AttachUprobe uprobe libcFile offset) ;;
          err <- kernel (bpf_AttachUprobe env uprobe libcFile offset) ;;
          match err with
          | Some err =>
              emit (attach_error uprobe err) ;;
              ret (Err err)
          | None =>
              attach_loop env libc_elf libcFile rest (probes_attached + 1)
          end
      end
  end.

Definition NoProbesAttached : error :=
  errors_New "Failed to find symbols for uprobes.".

(** ** DnsListenerEbpf (lines 93-181) *)

(** How a run ends: it returns [err] (Go's [nil] is [None]), or it stays in
    [<-sig] for ever because no signal comes. *)
Inductive run : Type :=
| Returned (err : option error)
| Waiting.

Definition artifact : string := "/etc/opensnitchd/opensnitch-dns.o".

(** Lines 140-180: from the perf map to the return after the signal. *)
Definition poll {K : Type} (env : Env K) : M K run :=
  emit (call_InitPerfMap "events") ;;
  err <- kernel (bpf_InitPerfMap env) ;;
  match err with
  | Some err =>
      emit (log ERROR ("EBPF-DNS: Failed to init perf map: %s" ++ nl)
              [a_error err]) ;;
      ret (Returned (Some err))
  | None =>
      emit call_Notify ;;
      emit go_consumer ;;
      emit call_PollStart ;;
      kernel_ (bpf_PollStart env) ;;
      match os_sig env with
      | None => ret Waiting
      | Some s =>
          emit (recv_sig s) ;;
          emit (log INFO
                  "EBPF-DNS: Received signal: terminating ebpf dns hook." []) ;;
          emit call_PollStop ;;
          kernel_ (bpf_PollStop env) ;;
          ret (Returned None)
      end
  end.

(** Lines 106-138, then [poll]: everything under the [defer m.Close()]. *)
Definition loaded {K : Type} (env : Env K) : M K run :=
  match findLibc env with
  | Err err =>
      emit (log ERROR "EBPF-DNS: Failed to find libc.so: %v" [a_error err]) ;;
      ret (Returned (Some err))
  | Ok libcFile =>
      match elf_Open env libcFile with
      | Err err =>
          emit (log ERROR "EBPF-DNS: Failed to open %s: %v"
                  [a_string libcFile; a_error err]) ;;
          ret (Returned (Some err))
      | Ok libc_elf =>
          uprobes <- ask (bpf_IterUprobes env) ;;
          r <- attach_loop env libc_elf libcFile uprobes 0 ;;
          match r with
          | Err err => ret (Returned (Some err))
          | Ok probes_attached =>
              if probes_attached =? 0 then
                emit (log WARNING
                        "EBPF-DNS: Failed to find symbols for uprobes." []) ;;
                ret (Returned (Some NoProbesAttached))
              else poll env
          end
      end
  end.

Definition DnsListenerEbpf {K : Type} (env : Env K) : M K run :=
  emit (call_Load artifact) ;;
  err <- kernel (bpf_Load env) ;;
  match err with
  | Some err =>
      emit (log ERROR
              "EBPF-DNS: Failed to load /etc/opensnitchd/opensnitch-dns.o: %v"
              [a_error err]) ;;
      ret (Returned (Some err))
  | None =>
      r <- loaded env ;;
      match r with
      | Waiting => ret Waiting
      | Returned err =>
          (* the deferred m.Close() *)
          emit call_Close ;;
          kernel_ (bpf_Close env) ;;
          ret (Returned err)
      end
  end.

(** ** The consumer goroutine (lines 151-174) *)

(** [nameLookupEvent]: 4 + 16 + 252 = 272 bytes on the wire. *)
Record nameLookupEvent : Type := mkEvent {
  AddrType : Z;          (* uint32 *)
  Ip : list byte;        (* [16]uint8 *)
  Host : list byte       (* [252]byte *)
}.

Definition byte_Z (b : byte) : Z := Z.of_N (Byte.to_N b).

(** [binary.LittleEndian.Uint32]. *)
Definition LittleEndian_Uint32 (b : list byte) : Z :=
  Z.lor (byte_Z (nth 0 b x00))
    (Z.lor (Z.shiftl (byte_Z (nth 1 b x00)) 8)
       (Z.lor (Z.shiftl (byte_Z (nth 2 b x00)) 16)
              (Z.shiftl (byte_Z (nth 3 b x00)) 24))).

(** [binary.Read(bytes.NewBuffer(data), binary.LittleEndian, &event)]: the
    272 bytes of the struct are read in full or nothing is stored; bytes
    after them stay in the buffer. *)
Definition binary_Read (data : list byte) : result nameLookupEvent :=
  match data with
  | [] => Err io_EOF
  | _ =>
      if Z.of_nat (List.length data) <? 272 then Err io_ErrUnexpectedEOF
      else Ok (mkEvent (LittleEndian_Uint32 (firstn 4 data))
                       (firstn 16 (skipn 4 data))
                       (firstn 252 (skipn 20 data)))
  end.

(** [bytes.IndexByte(b, c)]: the index of the first [c], or [-1]. *)
Fixpoint bytes_IndexByte (b : list byte) (c : byte) : Z :=
  match b with
  | [] => -1
  | x :: b' =>
      if Byte.eqb x c then 0
      else let i := bytes_IndexByte b' c in
           if i <? 0 then -1 else i + 1
  end.

(** The slice expression [a[:high]] on an array: a run-time panic ([None])
    unless [0 <= high <= len(a)]. *)
Definition slice_to {A : Type} (a : list A) (high : Z) : option (list A) :=
  if (high <? 0) || (Z.of_nat (List.length a) <? high) then None
  else Some (firstn (Z.to_nat high) a).

(** How one turn of the consumer's [for] ends: back at [<-channel], or in a
    run-time panic, which ends the goroutine and the process with it. *)
Inductive turn : Type :=
| Next
| Panic (text : string).

(** Lines 163-169. *)
Definition event_ip (event : nameLookupEvent) : list byte :=
  if AddrType event =? 2 then firstn 4 (Ip event) else Ip event.

(** The log lines 155, 158 and 171. *)
Definition lookup_debug (data : list byte) : effect :=
  log DEBUG "EBPF-DNS: LookupEvent %d %x %x %x"
    [a_int (Z.of_nat (List.length data)); a_bytes (firstn 4 data);
     a_bytes (firstn 16 (skipn 4 data)); a_bytes (skipn 20 data)].

Definition decode_warning (err : error) : effect :=
  log WARNING ("EBPF-DNS: Failed to decode ebpf nameLookupEvent: %s" ++ nl)
    [a_error err].

Definition tracking_debug (host ip : string) : effect :=
  log DEBUG ("EBPF-DNS: Tracking Resolved Message: %s -> %s" ++ nl)
    [a_string host; a_string ip].

(** One turn of the loop on the buffer [data] received from the channel.
    [event] is declared outside the loop, but every turn that uses it has
    just stored all of its fields.  Line 155 slices [data] at 4 and 20 before
    anything else, which panics on a buffer shorter than 20 bytes. *)
Definition consume {K : Type} (env : Env K) (data : list byte) : M K turn :=
  if Z.of_nat (List.length data) <? 20 then
    ret (Panic "slice bounds out of range")
  else
    emit (lookup_debug data) ;;
    match binary_Read data with
    | Err err =>
        emit (decode_warning err) ;;
        ret Next
    | Ok event =>
        match slice_to (Host event) (bytes_IndexByte (Host event) x00) with
        | None => ret (Panic "slice bounds out of range")
        | Some h =>
            let host := string_of_list_byte h in
            let ip := event_ip event in
            emit (tracking_debug host (IP_String env ip)) ;;
            emit (call_Track (IP_String env ip) host) ;;
            ret Next
        end
    end.

(** The goroutine on the buffers the channel delivers, in order. *)
Fixpoint consumer {K : Type} (env : Env K) (buffers : list (list byte))
  : M K turn :=
  match buffers with
  | [] => ret Next
  | data :: rest =>
      t <- consume env data ;;
      match t with
      | Next => consumer env rest
      | Panic text => ret (Panic text)
      end
  end.

(** ** Values the examples run on *)

(** The symbol table of the example: two entries. *)
Definition libc_table : list Symbol :=
  [mkSymbol "getaddrinfo" 0x1234; mkSymbol "gethostbyname" 0x5678].

Definition libc_so : elf_File := mkFile (Ok libc_table).

(** A library without a symbol section. *)
Definition stripped_so : elf_File := mkFile (Err elf_ErrNoSymbols).

(** A stand-in for [net.IP.String]: the bytes in decimal, separated by dots. *)
Definition dotted (ip : list byte) : string :=
  String.concat "."
    (map (fun b => NilEmpty.string_of_uint (N.to_uint (Byte.to_N b))) ip).

(** A kernel that counts the attached probes; [attach] and [init] decide what
    [AttachUprobe] and [InitPerfMap] answer. *)
Definition counting_env (file : elf_File) (uprobes : list Uprobe)
    (attach : Uprobe -> option error) (init : option error)
    (sig : option os_Signal) : Env nat :=
  {| bpf_Load := fun k => (k, None);
     bpf_Close := fun _ => O;
     C_find_libc := Some "/lib/x86_64-linux-gnu/libc.so.6";
     elf_Open := fun _ => Ok file;
     bpf_IterUprobes := fun _ => uprobes;
     bpf_AttachUprobe := fun u _ _ k =>
       match attach u with
       | None => (S k, None)
       | Some err => (k, Some err)
       end;
     bpf_InitPerfMap := fun k => (k, init);
     bpf_PollStart := fun k => k;
     bpf_PollStop := fun k => k;
     os_sig := sig;
     IP_String := dotted |}.

Definition w0 : World nat := mkWorld O [].

Definition EINVAL : error := errors_New "invalid argument".

(** A 272-byte record: family, 16 address bytes, a hostname padded to 252
    bytes with [pad]. *)
Definition record (family : list byte) (address : list byte)
    (hostname : string) (pad : byte) : list byte :=
  family ++ address
  ++ firstn 252 (list_byte_of_string hostname ++ repeat pad 252).

Definition example_com : list byte :=
  record [x02; x00; x00; x00]
    ([xc0; xa8; x01; x01] ++ repeat x00 12) "example.com" x00.

(** The same record with no zero byte in the hostname field. *)
Definition unterminated : list byte :=
  record [x02; x00; x00; x00]
    ([xc0; xa8; x01; x01] ++ repeat x00 12) "example.com" x2e.

(** ** find_libc, the C function behind findLibc (lines 28-56) *)

(** What the dynamic linker answers: [dlopen(NULL, RTLD_NOW)] gives no handle
    (with the text of [dlerror()]) or a handle, on which [dlinfo] fails or
    gives the chain of loaded objects, by their [l_name], in [l_next] order. *)
Inductive dlinfo_result : Type :=
| dlinfo_fails (dlerror : string)
| dlinfo_link_map (l_names : list string).

Inductive dlopen_result : Type :=
| dlopen_NULL (dlerror : string)
| dlopen_handle (info : dlinfo_result).

(** C's [strstr]: the rest of [haystack] from the first occurrence of
    [needle] on, [None] for [NULL]. *)
Definition strstr (haystack needle : string) : option string :=
  option_map (fun i => strings.drop i haystack) (strings.Index haystack needle).

(** The [while(1)] loop of lines 44-54; the result is what went to [stderr]
    and the returned pointer ([None] for [NULL]). *)
Fixpoint find_libc_walk (map : list string) : list string * option string :=
  match map with
  | [] => ([], None)
  | l_name :: l_next =>
      match strstr l_name "libc.so" with
      | Some _ => ([("found " ++ l_name ++ nl)%string], Some l_name)
      | None => find_libc_walk l_next
      end
  end.

Definition find_libc (dl : dlopen_result) : list string * option string :=
  match dl with
  | dlopen_NULL dlerror =>
      ([("EBPF-DNS dlopen() failed: " ++ dlerror ++ nl)%string], None)
  | dlopen_handle (dlinfo_fails dlerror) =>
      ([("EBPF-DNS: dlinfo failed: " ++ dlerror ++ nl)%string], None)
  | dlopen_handle (dlinfo_link_map map) => find_libc_walk map
  end.

(** ** Kinds of effects *)

Definition is_Close (e : effect) : bool :=
  match e with call_Close => true | _ => false end.

Definition is_AttachUprobe (e : effect) : bool :=
  match e with call_AttachUprobe _ _ _ => true | _ => false end.

Definition is_Track (e : effect) : bool :=
  match e with call_Track _ _ => true | _ => false end.

Definition is_log (e : effect) : bool :=
  match e with log _ _ _ => true | _ => false end.

(** The effects of lines 118-133: log lines and attach requests. *)
Definition is_loop_effect (e : effect) : bool :=
  is_AttachUprobe e || is_log e.

(** How many effects of [tr] are of the kind [p]. *)
Definition count (p : effect -> bool) (tr : list effect) : Z :=
  Z.of_nat (List.length (filter p tr)).

(** * Properties *)

(** ** Symbol lookup *)

Lemma lookupSymbol_range_first (pre post : list Symbol) (s : Symbol) :
  (forall x, In x pre -> Name x <> Name s) ->
  lookupSymbol_range (pre ++ s :: post) (Name s) = Ok (Value s).
Proof.
  induction pre as [|x pre IH]; intros Hpre; simpl.
  - now rewrite String.eqb_refl.
  - destruct (String.eqb_spec (Name x) (Name s)) as [E|_].
    + exfalso. apply (Hpre x); [now left | exact E].
    + apply IH. intros y Hy. apply Hpre. now right.
Qed.

Lemma lookupSymbol_range_absent (symbols : list Symbol) (name : string) :
  (forall s, In s symbols -> Name s <> name) ->
  lookupSymbol_range symbols name = Err (SymbolNotFound name).
Proof.
  induction symbols as [|x l IH]; intros Habs; simpl.
  - reflexivity.
  - destruct (String.eqb_spec (Name x) name) as [E|_].
    + exfalso. apply (Habs x); [now left | exact E].
    + apply IH. intros y Hy. apply Habs. now right.
Qed.

(** Every table splits at the first entry called [name], when it has one. *)
Lemma first_entry (symbols : list Symbol) (name : string) :
  (exists s, In s symbols /\ Name s = name) ->
  exists pre s post,
    symbols = pre ++ s :: post /\ Name s = name /\
    (forall x, In x pre -> Name x <> name).
Proof.
  induction symbols as [|x l IH]; intros [s [Hin Hs]].
  - destruct Hin.
  - destruct (String.eqb_spec (Name x) name) as [E|N].
    + exists [], x, l. repeat split; [exact E | intros y []].
    + destruct IH as [pre [s' [post [Hl [Hs' Hpre]]]]].
      * destruct Hin as [->|Hin]; [contradiction | now exists s].
      * exists (x :: pre), s', post. subst l. repeat split; [exact Hs'|].
        intros y [<-|Hy]; [exact N | now apply Hpre].
Qed.

(** C7. [lookupSymbol] matches the name exactly and linearly: on a table
    with an entry of the requested name it returns the value recorded in the
    first such entry (so in the table getaddrinfo: 0x1234, gethostbyname:
    0x5678 the name getaddrinfo resolves to 0x1234), and on a table with no
    entry of that name it fails with the symbol-not-found error. *)
Theorem lookupSymbol_exact_linear_match :
  (forall pre s post,
      (forall x, In x pre -> Name x <> Name s) ->
      lookupSymbol (mkFile (Ok (pre ++ s :: post))) (Name s) = Ok (Value s))
  /\ (forall symbols name,
         (exists s, In s symbols /\ Name s = name) ->
         exists s, In s symbols /\ Name s = name /\
                   lookupSymbol (mkFile (Ok symbols)) name = Ok (Value s))
  /\ (forall symbols name,
         (forall s, In s symbols -> Name s <> name) ->
         lookupSymbol (mkFile (Ok symbols)) name = Err (SymbolNotFound name))
  /\ lookupSymbol libc_so "getaddrinfo" = Ok 0x1234
  /\ lookupSymbol libc_so "nonexistent" = Err (SymbolNotFound "nonexistent").
Proof.
  split; [|split; [|split; [|split]]].
  - intros pre s post Hpre. unfold lookupSymbol; simpl.
    now apply lookupSymbol_range_first.
  - intros symbols name Hex.
    destruct (first_entry symbols name Hex) as [pre [s [post [-> [Hs Hpre]]]]].
    exists s. split; [apply in_elt | split; [exact Hs|]].
    unfold lookupSymbol; simpl. rewrite <- Hs.
    apply lookupSymbol_range_first. now rewrite Hs.
  - intros symbols name Habs. unfold lookupSymbol; simpl.
    now apply lookupSymbol_range_absent.
  - reflexivity.
  - reflexivity.
Qed.

Lemma lookupSymbol_exact_linear_match_witness :
  (forall x, In x [mkSymbol "gethostbyname" 0x5678] ->
             Name x <> Name (mkSymbol "getaddrinfo" 0x1234))
  /\ lookupSymbol
       (mkFile (Ok ([mkSymbol "gethostbyname" 0x5678]
                    ++ mkSymbol "getaddrinfo" 0x1234
                    :: [mkSymbol "getaddrinfo" 0x9abc])))
       "getaddrinfo" = Ok 0x1234
  /\ (forall s, In s libc_table -> Name s <> "nonexistent")
  /\ lookupSymbol (mkFile (Ok libc_table)) "nonexistent"
     = Err (SymbolNotFound "nonexistent").
Proof.
  assert (H1 : forall x, In x [mkSymbol "gethostbyname" 0x5678] ->
                         Name x <> Name (mkSymbol "getaddrinfo" 0x1234)).
  { intros x [<-|[]]; simpl; discriminate. }
  assert (H2 : forall s, In s libc_table -> Name s <> "nonexistent").
  { intros s [<-|[<-|[]]]; simpl; discriminate. }
  split; [exact H1 | split; [| split; [exact H2|]]].
  - exact (proj1 lookupSymbol_exact_linear_match
             [mkSymbol "gethostbyname" 0x5678] (mkSymbol "getaddrinfo" 0x1234)
             [mkSymbol "getaddrinfo" 0x9abc] H1).
  - exact (proj1 (proj2 (proj2 lookupSymbol_exact_linear_match))
             libc_table "nonexistent" H2).
Defined.

(** ** The probed function *)

Lemma Replace1_no_occurrence (s old new : string) :
  strings.Index s old = None -> strings.Replace1 s old new = s.
Proof.
  induction s as [|c s IH]; cbn [strings.Index strings.Replace1].
  - destruct (String.prefix old ""); [discriminate | reflexivity].
  - destruct (String.prefix old (String c s)); [discriminate|].
    destruct (strings.Index s old) eqn:E; [discriminate|].
    intros _. now rewrite IH.
Qed.

Lemma Contains_false (s substr : string) :
  strings.Contains s substr = false -> strings.Index s substr = None.
Proof.
  unfold strings.Contains. now destruct (strings.Index s substr).
Qed.

Lemma prefix_append (old s : string) : String.prefix old (old ++ s) = true.
Proof.
  induction old as [|c old IH]; simpl.
  - now destruct s.
  - destruct (ascii_dec c c) as [_|N]; [exact IH | now elim N].
Qed.

Lemma drop_append (old s : string) :
  strings.drop (String.length old) (old ++ s) = s.
Proof.
  induction old as [|c old IH]; [reflexivity | exact IH].
Qed.

Lemma Replace1_at_start (old s : string) :
  strings.Replace1 (old ++ s) old "" = s.
Proof.
  assert (E : forall t,
             strings.Replace1 t old ""
             = if String.prefix old t
               then ("" ++ strings.drop (String.length old) t)%string
               else match t with
                    | EmptyString => EmptyString
                    | String c t' => String c (strings.Replace1 t' old "")
                    end) by (now intros [|c t]).
  rewrite E, prefix_append, drop_append. reflexivity.
Qed.

Lemma probeFunction_of_uprobe (f : string) :
  strings.Contains f "uretprobe/" = false ->
  probeFunction_of ("uprobe/" ++ f) = f.
Proof.
  intros H. apply Contains_false in H. unfold probeFunction_of.
  rewrite (Replace1_no_occurrence ("uprobe/" ++ f) "uretprobe/").
  - apply Replace1_at_start.
  - simpl. now rewrite H.
Qed.

Lemma probeFunction_of_uretprobe (f : string) :
  strings.Contains f "uprobe/" = false ->
  probeFunction_of ("uretprobe/" ++ f) = f.
Proof.
  intros H. apply Contains_false in H. unfold probeFunction_of.
  rewrite Replace1_at_start.
  now apply Replace1_no_occurrence.
Qed.

(** ** The attachment loop, one probe at a time *)

Section AttachLoop.

Context {K : Type} (env : Env K) (libc_elf : elf_File) (libcFile : string).

Lemma loop_missing (u : Uprobe) (rest : list Uprobe) (n : Z) (w : World K)
    (err : error) :
  lookupSymbol libc_elf (probeFunction_of (uprobe_Name u)) = Err err ->
  attach_loop env libc_elf libcFile (u :: rest) n w
  = attach_loop env libc_elf libcFile rest n (says w [symbol_warning u err]).
Proof.
  intros H. cbn [attach_loop]. rewrite H. reflexivity.
Qed.

Lemma loop_attached (u : Uprobe) (rest : list Uprobe) (n : Z) (w : World K)
    (offset : Z) (k : K) :
  lookupSymbol libc_elf (probeFunction_of (uprobe_Name u)) = Ok offset ->
  bpf_AttachUprobe env u libcFile offset (kern w) = (k, None) ->
  attach_loop env libc_elf libcFile (u :: rest) n w
  = attach_loop env libc_elf libcFile rest (n + 1)
      (mkWorld k (trace w ++ [call_AttachUprobe u libcFile offset])).
Proof.
  intros H Ha. cbn [attach_loop]. rewrite H.
  unfold bind, emit, kernel; cbn [kern trace]. rewrite Ha. reflexivity.
Qed.

Lemma loop_rejected (u : Uprobe) (rest : list Uprobe) (n : Z) (w : World K)
    (offset : Z) (k : K) (err : error) :
  lookupSymbol libc_elf (probeFunction_of (uprobe_Name u)) = Ok offset ->
  bpf_AttachUprobe env u libcFile offset (kern w) = (k, Some err) ->
  attach_loop env libc_elf libcFile (u :: rest) n w
  = (Err err,
     mkWorld k (trace w ++ [call_AttachUprobe u libcFile offset;
                            attach_error u err])).
Proof.
  intros H Ha. cbn [attach_loop]. rewrite H.
  unfold bind, emit, kernel, ret; cbn [kern trace]. rewrite Ha.
  cbn [kern trace]. now rewrite <- app_assoc.
Qed.

(** The loop on [pre ++ l] is the loop on [pre], then on [l] if line 130 did
    not return. *)
Lemma loop_app (pre l : list Uprobe) (n : Z) (w : World K) :
  attach_loop env libc_elf libcFile (pre ++ l) n w
  = match attach_loop env libc_elf libcFile pre n w with
    | (Ok n1, w1) => attach_loop env libc_elf libcFile l n1 w1
    | (Err err, w1) => (Err err, w1)
    end.
Proof.
  revert n w. induction pre as [|u pre IH]; intros n w.
  - reflexivity.
  - cbn [app].
    destruct (lookupSymbol libc_elf (probeFunction_of (uprobe_Name u)))
      as [offset|err] eqn:E.
    + destruct (bpf_AttachUprobe env u libcFile offset (kern w))
        as [k [e|]] eqn:Ea.
      * now rewrite !(loop_rejected u _ n w offset k e E Ea).
      * rewrite !(loop_attached u _ n w offset k E Ea). apply IH.
    + rewrite !(loop_missing u _ n w err E). apply IH.
Qed.

(** The loop only logs and asks for attachments. *)
Lemma loop_never_polls (us : list Uprobe) (n : Z) (w : World K) :
  ~ started_polling (trace w) ->
  ~ started_polling (trace (snd (attach_loop env libc_elf libcFile us n w))).
Proof.
  unfold started_polling.
  revert n w. induction us as [|u us IH]; intros n w Hw.
  - exact Hw.
  - destruct (lookupSymbol libc_elf (probeFunction_of (uprobe_Name u)))
      as [offset|err] eqn:E.
    + destruct (bpf_AttachUprobe env u libcFile offset (kern w))
        as [k [e|]] eqn:Ea.
      * rewrite (loop_rejected u us n w offset k e E Ea). cbn [snd trace].
        intros Hin. apply in_app_or in Hin. destruct Hin as [Hin|Hin].
        -- now apply Hw.
        -- destruct Hin as [Hin|[Hin|[]]]; discriminate Hin.
      * rewrite (loop_attached u us n w offset k E Ea). apply IH.
        cbn [trace]. intros Hin. apply in_app_or in Hin.
        destruct Hin as [Hin|[Hin|[]]]; [now apply Hw | discriminate Hin].
    + rewrite (loop_missing u us n w err E). apply IH.
      unfold says; cbn [trace]. intros Hin. apply in_app_or in Hin.
      destruct Hin as [Hin|[Hin|[]]]; [now apply Hw | discriminate Hin].
Qed.

End AttachLoop.

(** ** Soft and fatal failures of the attachment pass *)

(** C5. When the target symbol of a probe is not in the library's symbol
    table, the pass logs the warning of that probe and goes on with the
    descriptors after it, from the same kernel state and with the same
    counter as the descriptors before it left: the missing symbol does not
    end the pass. *)
Theorem missing_symbol_skips_probe {K : Type} (env : Env K)
    (libc_elf : elf_File) (libcFile : string) (symbols : list Symbol)
    (pre post : list Uprobe) (u : Uprobe) (n n1 : Z) (w w1 : World K) :
  Symbols libc_elf = Ok symbols ->
  (forall s, In s symbols -> Name s <> probeFunction_of (uprobe_Name u)) ->
  attach_loop env libc_elf libcFile pre n w = (Ok n1, w1) ->
  attach_loop env libc_elf libcFile (pre ++ u :: post) n w
  = attach_loop env libc_elf libcFile post n1
      (says w1 [symbol_warning u
                  (SymbolNotFound (probeFunction_of (uprobe_Name u)))]).
Proof.
  intros Hs Habs Hpre. rewrite loop_app, Hpre.
  apply loop_missing. unfold lookupSymbol. rewrite Hs.
  now apply lookupSymbol_range_absent.
Qed.

Lemma missing_symbol_skips_probe_witness :
  let env := counting_env libc_so [] (fun _ => None) None None in
  let pre := [mkUprobe "uprobe/getaddrinfo"] in
  let u := mkUprobe "uprobe/res_query" in
  let post := [mkUprobe "uretprobe/gethostbyname"] in
  let w1 := mkWorld 1%nat [call_AttachUprobe (mkUprobe "uprobe/getaddrinfo")
                             "libc.so.6" 0x1234] in
  Symbols libc_so = Ok libc_table
  /\ (forall s, In s libc_table ->
                Name s <> probeFunction_of (uprobe_Name u))
  /\ attach_loop env libc_so "libc.so.6" pre 0 w0 = (Ok 1, w1)
  /\ attach_loop env libc_so "libc.so.6" (pre ++ u :: post) 0 w0
     = attach_loop env libc_so "libc.so.6" post 1
         (says w1 [symbol_warning u (SymbolNotFound "res_query")])
  /\ fst (attach_loop env libc_so "libc.so.6" (pre ++ u :: post) 0 w0)
     = Ok 2.
Proof.
  intros env pre u post w1.
  assert (Habs : forall s, In s libc_table ->
                           Name s <> probeFunction_of (uprobe_Name u)).
  { intros s [<-|[<-|[]]]; vm_compute; discriminate. }
  split; [reflexivity | split; [exact Habs | split; [reflexivity|]]].
  split.
  - exact (missing_symbol_skips_probe env libc_so "libc.so.6" libc_table
             pre post u 0 1 w0 w1 eq_refl Habs eq_refl).
  - reflexivity.
Defined.

(** C6. When the symbol of a probe resolves and the kernel rejects the
    attach request, the loop ends there with that error, whatever
    descriptors come after the probe: none of them is looked up or attached,
    and [DnsListenerEbpf] returns the error to its caller. *)
Theorem rejected_attach_aborts_pass {K : Type} (env : Env K)
    (libc_elf : elf_File) (libcFile : string)
    (pre post : list Uprobe) (u : Uprobe) (offset n1 : Z)
    (w w1 : World K) (k0 k : K) (err : error) :
  bpf_Load env (kern w) = (k0, None) ->
  findLibc env = Ok libcFile ->
  elf_Open env libcFile = Ok libc_elf ->
  bpf_IterUprobes env k0 = pre ++ u :: post ->
  attach_loop env libc_elf libcFile pre 0
    (mkWorld k0 (trace w ++ [call_Load artifact])) = (Ok n1, w1) ->
  lookupSymbol libc_elf (probeFunction_of (uprobe_Name u)) = Ok offset ->
  bpf_AttachUprobe env u libcFile offset (kern w1) = (k, Some err) ->
  attach_loop env libc_elf libcFile (pre ++ u :: post) 0
    (mkWorld k0 (trace w ++ [call_Load artifact]))
  = (Err err,
     mkWorld k (trace w1 ++ [call_AttachUprobe u libcFile offset;
                             attach_error u err]))
  /\ DnsListenerEbpf env w
     = (Returned (Some err),
        mkWorld (bpf_Close env k)
          (trace w1 ++ [call_AttachUprobe u libcFile offset;
                        attach_error u err; call_Close])).
Proof.
  intros Hload Hlibc Hopen Hiter Hpre Hsym Hrej.
  assert (Hloop :
    attach_loop env libc_elf libcFile (pre ++ u :: post) 0
      (mkWorld k0 (trace w ++ [call_Load artifact]))
    = (Err err,
       mkWorld k (trace w1 ++ [call_AttachUprobe u libcFile offset;
                               attach_error u err]))).
  { rewrite loop_app, Hpre. now apply loop_rejected. }
  split; [exact Hloop|].
  unfold DnsListenerEbpf, bind at 1, emit at 1, bind at 1, kernel at 1.
  cbn [kern trace]. rewrite Hload.
  unfold bind at 1, loaded. rewrite Hlibc, Hopen.
  unfold bind at 1, ask at 1; cbn [kern trace]. rewrite Hiter.
  unfold bind at 1. rewrite Hloop.
  unfold ret at 1, bind, emit, kernel_, ret; cbn [kern trace].
  now rewrite <- app_assoc.
Qed.

Lemma rejected_attach_aborts_pass_witness :
  let pre := [mkUprobe "uprobe/res_query"] in
  let u := mkUprobe "uprobe/getaddrinfo" in
  let post := [mkUprobe "uretprobe/getaddrinfo"] in
  let env := counting_env libc_so (pre ++ u :: post)
               (fun _ => Some EINVAL) None (Some os_Interrupt) in
  let libcFile := "/lib/x86_64-linux-gnu/libc.so.6" in
  let w1 := mkWorld O [call_Load artifact;
                       symbol_warning (mkUprobe "uprobe/res_query")
                         (SymbolNotFound "res_query")] in
  attach_loop env libc_so libcFile (pre ++ u :: post) 0
    (mkWorld O (trace w0 ++ [call_Load artifact]))
  = (Err EINVAL,
     mkWorld O (trace w1 ++ [call_AttachUprobe u libcFile 0x1234;
                             attach_error u EINVAL]))
  /\ DnsListenerEbpf env w0
     = (Returned (Some EINVAL),
        mkWorld O (trace w1 ++ [call_AttachUprobe u libcFile 0x1234;
                                attach_error u EINVAL; call_Close])).
Proof.
  intros pre u post env libcFile w1.
  exact (rejected_attach_aborts_pass env libc_so libcFile pre post u
           0x1234 0 w0 w1 O O EINVAL
           eq_refl eq_refl eq_refl eq_refl eq_refl eq_refl eq_refl).
Defined.

(** C10. When the symbol table of the library cannot be read at all,
    [lookupSymbol] fails with the error of [Symbols()] for every name, and
    the pass treats that as it treats a missing symbol: it logs the warning
    of the probe and goes on with the descriptors after it.  The loop then
    visits every descriptor, attaches none and leaves the counter as it was;
    it never returns the error of the table. *)
Theorem unreadable_table_skips_probe {K : Type} (env : Env K)
    (libc_elf : elf_File) (libcFile : string) (err : error) :
  Symbols libc_elf = Err err ->
  (forall name, lookupSymbol libc_elf name = Err err)
  /\ (forall pre u post n w n1 w1,
         attach_loop env libc_elf libcFile pre n w = (Ok n1, w1) ->
         attach_loop env libc_elf libcFile (pre ++ u :: post) n w
         = attach_loop env libc_elf libcFile post n1
             (says w1 [symbol_warning u err]))
  /\ (forall us n w,
         attach_loop env libc_elf libcFile us n w
         = (Ok n, says w (map (fun u => symbol_warning u err) us))).
Proof.
  intros Hs.
  assert (Hl : forall name, lookupSymbol libc_elf name = Err err).
  { intros name. unfold lookupSymbol. now rewrite Hs. }
  split; [exact Hl | split].
  - intros pre u post n w n1 w1 Hpre. rewrite loop_app, Hpre.
    apply loop_missing, Hl.
  - induction us as [|u us IH]; intros n w.
    + unfold says; cbn [map attach_loop ret]. rewrite app_nil_r.
      now destruct w.
    + rewrite (loop_missing env libc_elf libcFile u us n w err (Hl _)), IH.
      unfold says; cbn [map kern trace]. now rewrite <- app_assoc.
Qed.

Lemma unreadable_table_skips_probe_witness :
  let env := counting_env stripped_so [] (fun _ => None) None None in
  let us := [mkUprobe "uprobe/getaddrinfo"; mkUprobe "uretprobe/getaddrinfo"] in
  Symbols stripped_so = Err elf_ErrNoSymbols
  /\ lookupSymbol stripped_so "getaddrinfo" = Err elf_ErrNoSymbols
  /\ attach_loop env stripped_so "libc.so.6" us 0 w0
     = (Ok 0, says w0 (map (fun u => symbol_warning u elf_ErrNoSymbols) us)).
Proof.
  intros env us.
  pose proof (unreadable_table_skips_probe env stripped_so "libc.so.6"
                elf_ErrNoSymbols eq_refl) as [Hl [_ Hall]].
  split; [reflexivity | split; [apply Hl | apply Hall]].
Defined.

(** ** The kind prefix of a probe name *)

(** The two [strings.Replace] calls take out the first occurrence of each
    prefix string wherever it stands: a function name that itself contains
    the other prefix string loses it too. *)
Lemma probe_function_loses_inner_prefix :
  probeFunction_of ("uretprobe/" ++ "uprobe/resolve") = "resolve"
  /\ probeFunction_of ("uprobe/" ++ "uretprobe/resolve") = "resolve"
  /\ ~ (forall f, probeFunction_of ("uretprobe/" ++ f) = f)
  /\ ~ (forall f, probeFunction_of ("uprobe/" ++ f) = f).
Proof.
  split; [reflexivity | split; [reflexivity | split]].
  - intros H. specialize (H "uprobe/resolve"). discriminate H.
  - intros H. specialize (H "uretprobe/resolve"). discriminate H.
Qed.

(** For a probe named uprobe/f where f does not contain the string
    uretprobe/, and for a probe named uretprobe/f where f does not contain
    the string uprobe/, the probed function is f, and the loop treats both
    kinds alike: it looks f up, skips the probe with a warning when the
    lookup fails, and otherwise asks for the attachment at the library path
    and the offset of f. *)
Lemma probe_function_strips_prefix_strings :
  (forall f, strings.Contains f "uretprobe/" = false ->
             probeFunction_of ("uprobe/" ++ f) = f)
  /\ (forall f, strings.Contains f "uprobe/" = false ->
                probeFunction_of ("uretprobe/" ++ f) = f)
  /\ probeFunction_of "uprobe/getaddrinfo" = "getaddrinfo"
  /\ probeFunction_of "uretprobe/getaddrinfo" = "getaddrinfo"
  /\ (forall (K : Type) (env : Env K) libc_elf libcFile kind f rest n w,
         kind = "uprobe/" /\ strings.Contains f "uretprobe/" = false
         \/ kind = "uretprobe/" /\ strings.Contains f "uprobe/" = false ->
         let u := mkUprobe (kind ++ f) in
         attach_loop env libc_elf libcFile (u :: rest) n w
         = match lookupSymbol libc_elf f with
           | Err err =>
               attach_loop env libc_elf libcFile rest n
                 (says w [symbol_warning u err])
           | Ok offset =>
               match bpf_AttachUprobe env u libcFile offset (kern w) with
               | (k, None) =>
                   attach_loop env libc_elf libcFile rest (n + 1)
                     (mkWorld k
                        (trace w ++ [call_AttachUprobe u libcFile offset]))
               | (k, Some err) =>
                   (Err err,
                    mkWorld k
                      (trace w ++ [call_AttachUprobe u libcFile offset;
                                   attach_error u err]))
               end
           end).
Proof.
  split; [exact probeFunction_of_uprobe|].
  split; [exact probeFunction_of_uretprobe|].
  split; [reflexivity | split; [reflexivity|]].
  intros K env libc_elf libcFile kind f rest n w Hkind u.
  assert (Hf : probeFunction_of (uprobe_Name u) = f).
  { destruct Hkind as [[-> Hf]|[-> Hf]]; subst u; cbn [uprobe_Name].
    - now apply probeFunction_of_uprobe.
    - now apply probeFunction_of_uretprobe. }
  destruct (lookupSymbol libc_elf f) as [offset|err] eqn:E;
    rewrite <- Hf in E.
  - destruct (bpf_AttachUprobe env u libcFile offset (kern w))
      as [k [err|]] eqn:Ea.
    + now apply loop_rejected.
    + now apply loop_attached.
  - now apply loop_missing.
Qed.

(** A name without a slash holds no string that has one. *)
Lemma no_slash_inv (c : ascii) (f : string) :
  strings.Index (String c f) "/" = None ->
  c <> "/"%char /\ strings.Index f "/" = None.
Proof.
  cbn [strings.Index String.prefix].
  destruct (ascii_dec "/" c) as [<-|N].
  - now destruct f.
  - destruct (strings.Index f "/"); [discriminate|].
    intros _. split; [congruence | reflexivity].
Qed.

Lemma prefix_needs_slash (old f : string) :
  strings.Index f "/" = None ->
  In "/"%char (list_ascii_of_string old) ->
  String.prefix old f = false.
Proof.
  revert f. induction old as [|a old IH]; intros f Hf Hin; [destruct Hin|].
  destruct f as [|c f]; [reflexivity|].
  destruct (no_slash_inv c f Hf) as [Hc Hf'].
  cbn [String.prefix]. destruct (ascii_dec a c) as [->|_]; [|reflexivity].
  apply IH; [exact Hf'|].
  destruct Hin as [E|Hin]; [now elim Hc | exact Hin].
Qed.

Lemma no_slash_no_occurrence (old f : string) :
  strings.Contains f "/" = false ->
  In "/"%char (list_ascii_of_string old) ->
  strings.Contains f old = false.
Proof.
  intros Hf Hin. apply Contains_false in Hf.
  unfold strings.Contains.
  assert (E : strings.Index f old = None); [|now rewrite E].
  induction f as [|c f IH]; cbn [strings.Index].
  - now rewrite (prefix_needs_slash old "" Hf Hin).
  - rewrite (prefix_needs_slash old (String c f) Hf Hin).
    destruct (no_slash_inv c f Hf) as [_ Hf'].
    now rewrite (IH Hf').
Qed.

(** C8. For a probe named uprobe/f or uretprobe/f, where f is the name of a
    function and so holds no slash, the probed function is f; so
    uprobe/getaddrinfo and uretprobe/getaddrinfo both give getaddrinfo.  For
    both kinds the loop then does the same: it looks f up, skips the probe
    with a warning when the lookup fails, and otherwise asks for the
    attachment at the library path and the offset of f. *)
Theorem probe_function_strips_kind_prefix :
  (forall f, strings.Contains f "/" = false ->
             probeFunction_of ("uprobe/" ++ f) = f
             /\ probeFunction_of ("uretprobe/" ++ f) = f)
  /\ probeFunction_of "uprobe/getaddrinfo" = "getaddrinfo"
  /\ probeFunction_of "uretprobe/getaddrinfo" = "getaddrinfo"
  /\ (forall (K : Type) (env : Env K) libc_elf libcFile kind f rest n w,
         kind = "uprobe/" \/ kind = "uretprobe/" ->
         strings.Contains f "/" = false ->
         let u := mkUprobe (kind ++ f) in
         attach_loop env libc_elf libcFile (u :: rest) n w
         = match lookupSymbol libc_elf f with
           | Err err =>
               attach_loop env libc_elf libcFile rest n
                 (says w [symbol_warning u err])
           | Ok offset =>
               match bpf_AttachUprobe env u libcFile offset (kern w) with
               | (k, None) =>
                   attach_loop env libc_elf libcFile rest (n + 1)
                     (mkWorld k
                        (trace w ++ [call_AttachUprobe u libcFile offset]))
               | (k, Some err) =>
                   (Err err,
                    mkWorld k
                      (trace w ++ [call_AttachUprobe u libcFile offset;
                                   attach_error u err]))
               end
           end).
Proof.
  assert (Hr : forall f, strings.Contains f "/" = false ->
                         strings.Contains f "uretprobe/" = false).
  { intros f Hf. apply no_slash_no_occurrence; [exact Hf|]. cbn. tauto. }
  assert (Hu : forall f, strings.Contains f "/" = false ->
                         strings.Contains f "uprobe/" = false).
  { intros f Hf. apply no_slash_no_occurrence; [exact Hf|]. cbn. tauto. }
  split; [|split; [reflexivity | split; [reflexivity|]]].
  - intros f Hf. split.
    + apply probeFunction_of_uprobe, Hr, Hf.
    + apply probeFunction_of_uretprobe, Hu, Hf.
  - intros K env libc_elf libcFile kind f rest n w Hkind Hf u.
    assert (E : probeFunction_of (uprobe_Name u) = f).
    { destruct Hkind as [->| ->]; subst u; cbn [uprobe_Name].
      - apply probeFunction_of_uprobe, Hr, Hf.
      - apply probeFunction_of_uretprobe, Hu, Hf. }
    destruct (lookupSymbol libc_elf f) as [offset|err] eqn:El;
      rewrite <- E in El.
    + destruct (bpf_AttachUprobe env u libcFile offset (kern w))
        as [k [err|]] eqn:Ea.
      * now apply loop_rejected.
      * now apply loop_attached.
    + now apply loop_missing.
Qed.

Lemma probe_function_strips_kind_prefix_witness :
  strings.Contains "gethostbyname" "/" = false
  /\ probeFunction_of ("uprobe/" ++ "gethostbyname") = "gethostbyname"
  /\ probeFunction_of ("uretprobe/" ++ "gethostbyname") = "gethostbyname"
  /\ fst (attach_loop (counting_env libc_so [] (fun _ => None) None None)
            libc_so "libc.so.6"
            [mkUprobe ("uretprobe/" ++ "gethostbyname")] 0 w0)
     = Ok 1.
Proof.
  destruct probe_function_strips_kind_prefix as [Hf [_ [_ Hloop]]].
  destruct (Hf "gethostbyname" eq_refl) as [Hu Hr].
  split; [reflexivity | split; [exact Hu | split; [exact Hr|]]].
  rewrite (Hloop nat (counting_env libc_so [] (fun _ => None) None None)
             libc_so "libc.so.6" "uretprobe/" "gethostbyname" [] 0 w0
             (or_intror eq_refl) eq_refl).
  reflexivity.
Defined.

(** ** The counter of attached probes and the start of polling *)

Section Lifecycle.

Context {K : Type} (env : Env K).

Lemma poll_init_failed (w1 : World K) (k2 : K) (err : error) :
  bpf_InitPerfMap env (kern w1) = (k2, Some err) ->
  poll env w1
  = (Returned (Some err),
     mkWorld k2
       (trace w1 ++ [call_InitPerfMap "events";
                     log ERROR ("EBPF-DNS: Failed to init perf map: %s" ++ nl)
                       [a_error err]])).
Proof.
  intros H. unfold poll, bind, emit, kernel, ret; cbn [kern trace].
  rewrite H; cbn [kern trace]. now rewrite <- app_assoc.
Qed.

Lemma poll_started (w1 : World K) (k2 : K) :
  bpf_InitPerfMap env (kern w1) = (k2, None) ->
  poll env w1
  = match os_sig env with
    | None =>
        (Waiting,
         mkWorld (bpf_PollStart env k2)
           (trace w1 ++ [call_InitPerfMap "events"; call_Notify; go_consumer;
                         call_PollStart]))
    | Some s =>
        (Returned None,
         mkWorld (bpf_PollStop env (bpf_PollStart env k2))
           (trace w1 ++ [call_InitPerfMap "events"; call_Notify; go_consumer;
                         call_PollStart; recv_sig s;
                         log INFO
                           "EBPF-DNS: Received signal: terminating ebpf dns hook."
                           [];
                         call_PollStop]))
    end.
Proof.
  intros H. unfold poll, bind, emit, kernel, kernel_, ret; cbn [kern trace].
  rewrite H; cbn [kern trace].
  destruct (os_sig env); cbn [kern trace]; now rewrite <- !app_assoc.
Qed.

(** The run from the end of the attachment loop on. *)
Lemma run_after_attach (libc_elf : elf_File) (libcFile : string)
    (w w1 : World K) (k0 : K) (n : Z) :
  bpf_Load env (kern w) = (k0, None) ->
  findLibc env = Ok libcFile ->
  elf_Open env libcFile = Ok libc_elf ->
  attach_loop env libc_elf libcFile (bpf_IterUprobes env k0) 0
    (mkWorld k0 (trace w ++ [call_Load artifact])) = (Ok n, w1) ->
  DnsListenerEbpf env w
  = if n =? 0 then
      (Returned (Some NoProbesAttached),
       mkWorld (bpf_Close env (kern w1))
         (trace w1 ++ [log WARNING
                         "EBPF-DNS: Failed to find symbols for uprobes." [];
                       call_Close]))
    else
      match poll env w1 with
      | (Waiting, w2) => (Waiting, w2)
      | (Returned err, w2) =>
          (Returned err,
           mkWorld (bpf_Close env (kern w2)) (trace w2 ++ [call_Close]))
      end.
Proof.
  intros Hload Hlibc Hopen Hloop.
  unfold DnsListenerEbpf, bind at 1, emit at 1, bind at 1, kernel at 1.
  cbn [kern trace]. rewrite Hload.
  unfold bind at 1, loaded. rewrite Hlibc, Hopen.
  unfold bind at 1, ask at 1; cbn [kern trace].
  unfold bind at 1. rewrite Hloop.
  destruct (n =? 0).
  - unfold bind, emit, kernel_, ret; cbn [kern trace].
    now rewrite <- app_assoc.
  - destruct (poll env w1) as [[err|] w2]; [|reflexivity].
    unfold bind, emit, kernel_, ret; cbn [kern trace]. reflexivity.
Qed.

End Lifecycle.

(** One probe attaches and the perf map cannot be initialised: the run
    returns that error and [PollStart] is never called. *)
Lemma attached_probe_without_polling :
  let env := counting_env libc_so [mkUprobe "uprobe/getaddrinfo"]
               (fun _ => None) (Some EINVAL) (Some os_Interrupt) in
  fst (attach_loop env libc_so "/lib/x86_64-linux-gnu/libc.so.6"
         (bpf_IterUprobes env O) 0 (mkWorld O [call_Load artifact]))
  = Ok 1
  /\ fst (DnsListenerEbpf env w0) = Returned (Some EINVAL)
  /\ ~ started_polling (trace (snd (DnsListenerEbpf env w0))).
Proof.
  intros env. split; [reflexivity | split; [reflexivity|]].
  vm_compute. intros H.
  repeat (destruct H as [H|H]; [discriminate H|]). exact H.
Qed.

(** C2, amended. When the loop has gone through all declared probes and the
    counter is zero, the run returns the no-probes-attached error after the
    warning and the deferred close, and polling is never started.  When the
    counter is at least one, the run goes on to initialise the perf map; if
    that succeeds, the consumer is spawned and polling starts, and if it
    fails, the run returns the error of the initialisation and polling is not
    started. *)
Theorem attach_count_gates_polling {K : Type} (env : Env K)
    (libc_elf : elf_File) (libcFile : string) (w w1 : World K) (k0 : K)
    (n : Z) :
  bpf_Load env (kern w) = (k0, None) ->
  findLibc env = Ok libcFile ->
  elf_Open env libcFile = Ok libc_elf ->
  attach_loop env libc_elf libcFile (bpf_IterUprobes env k0) 0
    (mkWorld k0 (trace w ++ [call_Load artifact])) = (Ok n, w1) ->
  ~ started_polling (trace w) ->
  (n = 0 ->
   exists w',
     DnsListenerEbpf env w = (Returned (Some NoProbesAttached), w')
     /\ trace w'
        = trace w1 ++ [log WARNING
                         "EBPF-DNS: Failed to find symbols for uprobes." [];
                       call_Close]
     /\ ~ started_polling (trace w'))
  /\ (1 <= n ->
      forall k2, bpf_InitPerfMap env (kern w1) = (k2, None) ->
      exists r w' rest,
        DnsListenerEbpf env w = (r, w')
        /\ trace w'
           = trace w1 ++ call_InitPerfMap "events" :: call_Notify
                         :: go_consumer :: call_PollStart :: rest
        /\ started_polling (trace w'))
  /\ (1 <= n ->
      forall k2 err, bpf_InitPerfMap env (kern w1) = (k2, Some err) ->
      exists w',
        DnsListenerEbpf env w = (Returned (Some err), w')
        /\ trace w'
           = trace w1 ++ [call_InitPerfMap "events";
                          log ERROR
                            ("EBPF-DNS: Failed to init perf map: %s" ++ nl)
                            [a_error err];
                          call_Close]
        /\ ~ started_polling (trace w')).
Proof.
  intros Hload Hlibc Hopen Hloop Hw.
  pose proof (run_after_attach env libc_elf libcFile w w1 k0 n
                Hload Hlibc Hopen Hloop) as Hrun.
  assert (Hw1 : ~ started_polling (trace w1)).
  { change w1 with (snd (Ok n, w1)). rewrite <- Hloop.
    apply loop_never_polls. unfold started_polling; cbn [trace].
    intros Hin. apply in_app_or in Hin.
    destruct Hin as [Hin|[Hin|[]]]; [now apply Hw | discriminate Hin]. }
  split; [|split].
  - intros ->. change (0 =? 0) with true in Hrun. cbv iota in Hrun.
    eexists. split; [exact Hrun | split; [reflexivity|]].
    unfold started_polling; cbn [trace]. intros Hin.
    apply in_app_or in Hin.
    destruct Hin as [Hin|[Hin|[Hin|[]]]];
      [now apply Hw1 | discriminate Hin | discriminate Hin].
  - intros Hn k2 Hinit.
    assert (E : (n =? 0) = false) by (apply Z.eqb_neq; lia).
    rewrite E, (poll_started env w1 k2 Hinit) in Hrun.
    destruct (os_sig env) as [s|].
    + eexists _, _, _. split; [exact Hrun|]. cbn [trace].
      rewrite <- app_assoc. split; [reflexivity|].
      unfold started_polling. apply in_or_app. right. cbn. tauto.
    + exists Waiting. eexists _, []. split; [exact Hrun|]. cbn [trace].
      split; [reflexivity|].
      unfold started_polling. apply in_or_app. right. cbn. tauto.
  - intros Hn k2 err Hinit.
    assert (E : (n =? 0) = false) by (apply Z.eqb_neq; lia).
    rewrite E, (poll_init_failed env w1 k2 err Hinit) in Hrun.
    eexists. split; [exact Hrun|]. cbn [trace]. rewrite <- app_assoc.
    split; [reflexivity|].
    unfold started_polling. intros Hin. apply in_app_or in Hin.
    destruct Hin as [Hin|[Hin|[Hin|[Hin|[]]]]];
      [now apply Hw1 | discriminate Hin | discriminate Hin | discriminate Hin].
Qed.

Lemma attach_count_gates_polling_witness :
  let libcFile := "/lib/x86_64-linux-gnu/libc.so.6" in
  let us := [mkUprobe "uprobe/getaddrinfo"; mkUprobe "uprobe/res_query"] in
  let env := counting_env libc_so us (fun _ => None) None
               (Some os_Interrupt) in
  let bare := counting_env stripped_so us (fun _ => None) None
                (Some os_Interrupt) in
  fst (attach_loop env libc_so libcFile us 0
         (mkWorld O (trace w0 ++ [call_Load artifact]))) = Ok 1
  /\ started_polling (trace (snd (DnsListenerEbpf env w0)))
  /\ fst (attach_loop bare stripped_so libcFile us 0
            (mkWorld O (trace w0 ++ [call_Load artifact]))) = Ok 0
  /\ fst (DnsListenerEbpf bare w0) = Returned (Some NoProbesAttached)
  /\ ~ started_polling (trace (snd (DnsListenerEbpf bare w0))).
Proof.
  intros libcFile us env bare.
  assert (Hw0 : ~ started_polling (trace w0)) by (intros []).
  split; [reflexivity | split; [|split; [reflexivity|]]].
  - destruct (attach_count_gates_polling env libc_so libcFile w0
                (snd (attach_loop env libc_so libcFile us 0
                        (mkWorld O (trace w0 ++ [call_Load artifact]))))
                O 1 eq_refl eq_refl eq_refl eq_refl Hw0) as [_ [H _]].
    destruct (H ltac:(lia) 1%nat eq_refl) as [r [w' [rest [Hrun [_ Hp]]]]].
    rewrite Hrun. exact Hp.
  - destruct (attach_count_gates_polling bare stripped_so libcFile w0
                (snd (attach_loop bare stripped_so libcFile us 0
                        (mkWorld O (trace w0 ++ [call_Load artifact]))))
                O 0 eq_refl eq_refl eq_refl eq_refl Hw0) as [H _].
    destruct (H eq_refl) as [w' [Hrun [_ Hp]]].
    rewrite Hrun. split; [reflexivity | exact Hp].
Defined.

(** ** Decoding a record *)

Lemma IndexByte_first (pre post : list byte) (c : byte) :
  ~ In c pre ->
  bytes_IndexByte (pre ++ c :: post) c = Z.of_nat (List.length pre).
Proof.
  induction pre as [|x pre IH]; intros Hpre; cbn [app bytes_IndexByte].
  - now rewrite (Byte.byte_dec_lb (eq_refl c)).
  - destruct (Byte.eqb x c) eqn:E.
    + exfalso. apply Hpre. left. now apply Byte.byte_dec_bl.
    + rewrite IH by (intros Hin; apply Hpre; now right).
      destruct (Z.ltb_spec (Z.of_nat (List.length pre)) 0) as [Hlt|_];
        [lia|]. cbn [List.length]. lia.
Qed.

Lemma IndexByte_absent (b : list byte) (c : byte) :
  ~ In c b -> bytes_IndexByte b c = -1.
Proof.
  induction b as [|x b IH]; intros Hb; cbn [bytes_IndexByte].
  - reflexivity.
  - destruct (Byte.eqb x c) eqn:E.
    + exfalso. apply Hb. left. now apply Byte.byte_dec_bl.
    + rewrite IH by (intros Hin; apply Hb; now right). reflexivity.
Qed.

(** A list splits at the first [c] it holds. *)
Lemma first_occurrence (b : list byte) (c : byte) :
  In c b -> exists pre post, b = pre ++ c :: post /\ ~ In c pre.
Proof.
  induction b as [|x b IH]; intros Hin; [destruct Hin|].
  destruct (Byte.byte_eq_dec x c) as [->|N].
  - exists [], b. split; [reflexivity | intros []].
  - destruct IH as [pre [post [-> Hpre]]].
    + destruct Hin as [E|Hin]; [contradiction | exact Hin].
    + exists (x :: pre), post. split; [reflexivity|].
      intros [E|Hin']; [contradiction | now apply Hpre].
Qed.

Lemma slice_to_length {A : Type} (pre l : list A) :
  slice_to (pre ++ l) (Z.of_nat (List.length pre)) = Some pre.
Proof.
  unfold slice_to. rewrite length_app, Nat2Z.id.
  destruct (Z.ltb_spec (Z.of_nat (List.length pre)) 0) as [Hlt|_]; [lia|].
  destruct (Z.ltb_spec (Z.of_nat (List.length pre + List.length l))
              (Z.of_nat (List.length pre))) as [Hlt|_]; [lia|].
  cbn [orb]. rewrite firstn_app, firstn_all, Nat.sub_diag.
  cbn [firstn]. now rewrite app_nil_r.
Qed.

Lemma binary_Read_Ok (data : list byte) (event : nameLookupEvent) :
  binary_Read data = Ok event ->
  272 <= Z.of_nat (List.length data)
  /\ event = mkEvent (LittleEndian_Uint32 (firstn 4 data))
                     (firstn 16 (skipn 4 data))
                     (firstn 252 (skipn 20 data)).
Proof.
  unfold binary_Read. destruct data as [|b data]; [discriminate|].
  destruct (Z.ltb_spec (Z.of_nat (List.length (b :: data))) 272)
    as [_|Hge]; [discriminate|].
  intros [= <-]. now split.
Qed.

Section Consumer.

Context {K : Type} (env : Env K).

(** A decoded record with a zero byte in its hostname field is tracked. *)
Lemma consume_tracks (data : list byte) (event : nameLookupEvent)
    (pre post : list byte) (w : World K) :
  binary_Read data = Ok event ->
  Host event = pre ++ x00 :: post ->
  ~ In x00 pre ->
  consume env data w
  = (Next,
     says w [lookup_debug data;
             tracking_debug (string_of_list_byte pre)
               (IP_String env (event_ip event));
             call_Track (IP_String env (event_ip event))
               (string_of_list_byte pre)]).
Proof.
  intros Hread Hhost Hpre.
  destruct (binary_Read_Ok data event Hread) as [Hlen _].
  unfold consume.
  destruct (Z.ltb_spec (Z.of_nat (List.length data)) 20) as [Hlt|_]; [lia|].
  unfold bind at 1, emit at 1. rewrite Hread, Hhost.
  rewrite IndexByte_first by exact Hpre. rewrite slice_to_length.
  unfold bind, emit, ret, says; cbn [kern trace].
  now rewrite <- !app_assoc.
Qed.

(** A decoded record with no zero byte in its hostname field: the slice
    bound is [-1] and the turn panics before anything is tracked. *)
Lemma consume_panics (data : list byte) (event : nameLookupEvent)
    (w : World K) :
  binary_Read data = Ok event ->
  ~ In x00 (Host event) ->
  consume env data w
  = (Panic "slice bounds out of range", says w [lookup_debug data]).
Proof.
  intros Hread Hhost.
  destruct (binary_Read_Ok data event Hread) as [Hlen _].
  unfold consume.
  destruct (Z.ltb_spec (Z.of_nat (List.length data)) 20) as [Hlt|_]; [lia|].
  unfold bind at 1, emit at 1. rewrite Hread.
  rewrite IndexByte_absent by exact Hhost. reflexivity.
Qed.

End Consumer.

(** C4. A decoded record whose hostname field holds a zero byte is tracked
    with the bytes of the field strictly before the first zero byte as its
    hostname. *)
Theorem hostname_is_bytes_before_first_zero {K : Type} (env : Env K)
    (data : list byte) (event : nameLookupEvent) (w : World K) :
  binary_Read data = Ok event ->
  In x00 (Host event) ->
  exists pre post,
    Host event = pre ++ x00 :: post
    /\ ~ In x00 pre
    /\ consume env data w
       = (Next,
          says w [lookup_debug data;
                  tracking_debug (string_of_list_byte pre)
                    (IP_String env (event_ip event));
                  call_Track (IP_String env (event_ip event))
                    (string_of_list_byte pre)])
    /\ list_byte_of_string (string_of_list_byte pre) = pre.
Proof.
  intros Hread Hin.
  destruct (first_occurrence (Host event) x00 Hin) as [pre [post [Hh Hpre]]].
  exists pre, post. split; [exact Hh | split; [exact Hpre | split]].
  - now apply consume_tracks with (post := post).
  - apply list_byte_of_string_of_list_byte.
Qed.

Lemma hostname_is_bytes_before_first_zero_witness :
  let env := counting_env libc_so [] (fun _ => None) None None in
  let event := mkEvent 2 ([xc0; xa8; x01; x01] ++ repeat x00 12)
                 (list_byte_of_string "example.com" ++ repeat x00 241) in
  binary_Read example_com = Ok event
  /\ In x00 (Host event)
  /\ exists pre post,
       Host event = pre ++ x00 :: post
       /\ ~ In x00 pre
       /\ consume env example_com w0
          = (Next,
             says w0 [lookup_debug example_com;
                      tracking_debug (string_of_list_byte pre)
                        (IP_String env (event_ip event));
                      call_Track (IP_String env (event_ip event))
                        (string_of_list_byte pre)])
       /\ list_byte_of_string (string_of_list_byte pre) = pre.
Proof.
  intros env event.
  assert (Hin : In x00 (Host event)).
  { apply in_or_app. right. now left. }
  split; [reflexivity | split; [exact Hin|]].
  exact (hostname_is_bytes_before_first_zero env example_com event w0
           eq_refl Hin).
Defined.

(** The record of the example reaches the sink as one call. *)
Example example_com_is_tracked :
  consume (counting_env libc_so [] (fun _ => None) None None) example_com w0
  = (Next,
     says w0 [lookup_debug example_com;
              tracking_debug "example.com" "192.168.1.1";
              call_Track "192.168.1.1" "example.com"]).
Proof. vm_compute. reflexivity. Qed.

(** In a decoded record the address handed to the sink is the text of the
    first 4 bytes of the address field when [AddrType] is 2, and the text of
    all 16 bytes when it is not: whatever the turn tracks carries that
    address, and it does track the record when the hostname field holds a
    zero byte. *)
Lemma event_ip_by_AddrType {K : Type} (env : Env K)
    (data : list byte) (event : nameLookupEvent) (w : World K) :
  binary_Read data = Ok event ->
  List.length (Ip event) = 16%nat
  /\ (AddrType event = 2 ->
      event_ip event = firstn 4 (Ip event)
      /\ event_ip event = firstn 4 (skipn 4 data)
      /\ List.length (event_ip event) = 4%nat)
  /\ (AddrType event <> 2 ->
      event_ip event = Ip event
      /\ event_ip event = firstn 16 (skipn 4 data)
      /\ List.length (event_ip event) = 16%nat)
  /\ (forall addr host,
         In (call_Track addr host)
            (trace (snd (consume env data (mkWorld (kern w) [])))) ->
         addr = IP_String env (event_ip event))
  /\ (In x00 (Host event) ->
      exists host,
        In (call_Track (IP_String env (event_ip event)) host)
           (trace (snd (consume env data w)))).
Proof.
  intros Hread.
  destruct (binary_Read_Ok data event Hread) as [Hlen Hev].
  assert (Hip : Ip event = firstn 16 (skipn 4 data)) by now subst event.
  assert (H16 : List.length (Ip event) = 16%nat).
  { rewrite Hip, length_firstn, length_skipn. lia. }
  split; [exact H16 | split; [|split; [|split]]].
  - intros H2. unfold event_ip. rewrite H2. cbn [Z.eqb Pos.eqb].
    split; [reflexivity | split].
    + rewrite Hip, firstn_firstn. reflexivity.
    + rewrite length_firstn. lia.
  - intros H2. unfold event_ip.
    destruct (Z.eqb_spec (AddrType event) 2) as [E|_]; [contradiction|].
    now split; [|split].
  - intros addr host Hin.
    destruct (in_dec Byte.byte_eq_dec x00 (Host event)) as [Hz|Hz].
    + destruct (first_occurrence (Host event) x00 Hz)
        as [pre [post [Hh Hpre]]].
      rewrite (consume_tracks env data event pre post _ Hread Hh Hpre) in Hin.
      cbn [snd says trace app] in Hin.
      destruct Hin as [Hin|[Hin|[Hin|[]]]]; try discriminate Hin.
      now injection Hin as <- _.
    + rewrite (consume_panics env data event _ Hread Hz) in Hin.
      cbn [snd says trace app] in Hin.
      destruct Hin as [Hin|[]]; discriminate Hin.
  - intros Hz.
    destruct (first_occurrence (Host event) x00 Hz) as [pre [post [Hh Hpre]]].
    exists (string_of_list_byte pre).
    rewrite (consume_tracks env data event pre post w Hread Hh Hpre).
    cbn [snd says trace]. apply in_or_app. right. cbn. tauto.
Qed.

(** ** A hostname field without a zero byte *)

Lemma no_zero_byte (b : list byte) :
  existsb (Byte.eqb x00) b = false -> ~ In x00 b.
Proof.
  intros H Hin.
  assert (E : existsb (Byte.eqb x00) b = true).
  { apply existsb_exists. exists x00. split; [exact Hin|].
    exact (Byte.byte_dec_lb (eq_refl x00)). }
  rewrite H in E. discriminate E.
Qed.

(** C1, on the code. The 272-byte record [unterminated] decodes, its
    hostname field holds no zero byte, and the turn that receives it panics
    on the slice bound [-1]: nothing is tracked, and the goroutine never
    handles the buffers that follow. *)
Theorem unterminated_hostname_panics :
  List.length unterminated = 272%nat
  /\ (exists event, binary_Read unterminated = Ok event
                    /\ ~ In x00 (Host event))
  /\ forall (K : Type) (env : Env K) (w : World K),
       consume env unterminated w
       = (Panic "slice bounds out of range",
          says w [lookup_debug unterminated])
       /\ forall rest,
            consumer env (unterminated :: rest) w
            = (Panic "slice bounds out of range",
               says w [lookup_debug unterminated]).
Proof.
  assert (Hz : ~ In x00 (firstn 252 (skipn 20 unterminated))).
  { apply no_zero_byte. vm_compute. reflexivity. }
  split; [reflexivity | split].
  - eexists. split; [reflexivity | exact Hz].
  - intros K env w.
    assert (Hc : consume env unterminated w
                 = (Panic "slice bounds out of range",
                    says w [lookup_debug unterminated])).
    { eapply consume_panics; [reflexivity | exact Hz]. }
    split; [exact Hc|].
    intros rest. cbn [consumer]. unfold bind at 1. now rewrite Hc.
Qed.

(** ** The foreground path after the signal *)

(** On the path that polls and then receives the signal [s], the listener
    spawns the consumer, starts polling, stops polling and only then runs the
    deferred close, which is its last effect.  The goroutine itself is in
    none of these steps: lines 151-174 hold no statement that ends it. *)
Lemma signal_path_order {K : Type} (env : Env K) (libc_elf : elf_File)
    (libcFile : string) (w w1 : World K) (k0 k2 : K) (n : Z) (s : os_Signal) :
  bpf_Load env (kern w) = (k0, None) ->
  findLibc env = Ok libcFile ->
  elf_Open env libcFile = Ok libc_elf ->
  attach_loop env libc_elf libcFile (bpf_IterUprobes env k0) 0
    (mkWorld k0 (trace w ++ [call_Load artifact])) = (Ok n, w1) ->
  1 <= n ->
  bpf_InitPerfMap env (kern w1) = (k2, None) ->
  os_sig env = Some s ->
  DnsListenerEbpf env w
  = (Returned None,
     mkWorld (bpf_Close env (bpf_PollStop env (bpf_PollStart env k2)))
       (trace w1 ++ [call_InitPerfMap "events"; call_Notify; go_consumer;
                     call_PollStart; recv_sig s;
                     log INFO
                       "EBPF-DNS: Received signal: terminating ebpf dns hook."
                       [];
                     call_PollStop; call_Close])).
Proof.
  intros Hload Hlibc Hopen Hloop Hn Hinit Hsig.
  rewrite (run_after_attach env libc_elf libcFile w w1 k0 n
             Hload Hlibc Hopen Hloop).
  assert (E : (n =? 0) = false) by (apply Z.eqb_neq; lia).
  rewrite E, (poll_started env w1 k2 Hinit), Hsig. cbn [kern trace].
  now rewrite <- app_assoc.
Qed.

(** * Further properties of the code *)

(** ** What a lookup result says about the table *)

Lemma lookupSymbol_range_Ok (symbols : list Symbol) (name : string) (v : Z) :
  lookupSymbol_range symbols name = Ok v ->
  exists s, In s symbols /\ Name s = name /\ Value s = v.
Proof.
  induction symbols as [|x l IH]; cbn [lookupSymbol_range]; [discriminate|].
  destruct (String.eqb_spec (Name x) name) as [E|_].
  - intros [= <-]. exists x. split; [now left | now split].
  - intros H. destruct (IH H) as [s [Hin Hs]]. exists s.
    split; [now right | exact Hs].
Qed.

Lemma lookupSymbol_range_Err (symbols : list Symbol) (name : string)
    (e : error) :
  lookupSymbol_range symbols name = Err e ->
  e = SymbolNotFound name /\ forall s, In s symbols -> Name s <> name.
Proof.
  induction symbols as [|x l IH]; cbn [lookupSymbol_range].
  - intros [= <-]. split; [reflexivity | intros s []].
  - destruct (String.eqb_spec (Name x) name) as [_|N]; [discriminate|].
    intros H. destruct (IH H) as [He Hl]. split; [exact He|].
    intros s [<-|Hs]; [exact N | now apply Hl].
Qed.

(** X1. A value returned by [lookupSymbol] is the value of an entry of the
    table with the requested name; an error returned by it is the error of
    [Symbols()], or the not-found error on a table with no entry of that
    name. *)
Theorem lookupSymbol_result_comes_from_table (elffile : elf_File)
    (name : string) :
  (forall v, lookupSymbol elffile name = Ok v ->
             exists symbols s,
               Symbols elffile = Ok symbols /\ In s symbols
               /\ Name s = name /\ Value s = v)
  /\ (forall e, lookupSymbol elffile name = Err e ->
                Symbols elffile = Err e
                \/ exists symbols,
                     Symbols elffile = Ok symbols
                     /\ e = SymbolNotFound name
                     /\ forall s, In s symbols -> Name s <> name).
Proof.
  unfold lookupSymbol. destruct (Symbols elffile) as [symbols|e0]; split.
  - intros v H. destruct (lookupSymbol_range_Ok symbols name v H) as [s Hs].
    now exists symbols, s.
  - intros e H. right. exists symbols. split; [reflexivity|].
    now apply lookupSymbol_range_Err.
  - discriminate.
  - intros e [= <-]. now left.
Qed.

Lemma lookupSymbol_result_comes_from_table_witness :
  lookupSymbol libc_so "gethostbyname" = Ok 0x5678
  /\ (exists symbols s,
         Symbols libc_so = Ok symbols /\ In s symbols
         /\ Name s = "gethostbyname" /\ Value s = 0x5678)
  /\ lookupSymbol stripped_so "gethostbyname" = Err elf_ErrNoSymbols
  /\ (Symbols stripped_so = Err elf_ErrNoSymbols
      \/ exists symbols,
           Symbols stripped_so = Ok symbols
           /\ elf_ErrNoSymbols = SymbolNotFound "gethostbyname"
           /\ forall s, In s symbols -> Name s <> "gethostbyname").
Proof.
  split; [reflexivity | split; [|split; [reflexivity|]]].
  - exact (proj1 (lookupSymbol_result_comes_from_table libc_so "gethostbyname")
             0x5678 eq_refl).
  - exact (proj2 (lookupSymbol_result_comes_from_table stripped_so
                    "gethostbyname") elf_ErrNoSymbols eq_refl).
Defined.

(** X2. On a table made of two parts, the lookup is the lookup in the first
    part when that finds the name, and the lookup in the second part
    otherwise: entries after the first match never change the result, nor
    do entries with other names before it. *)
Theorem lookupSymbol_concatenated_tables (l1 l2 : list Symbol)
    (name : string) :
  lookupSymbol (mkFile (Ok (l1 ++ l2))) name
  = match lookupSymbol (mkFile (Ok l1)) name with
    | Ok v => Ok v
    | Err _ => lookupSymbol (mkFile (Ok l2)) name
    end.
Proof.
  unfold lookupSymbol; cbn [Symbols].
  induction l1 as [|x l1 IH]; cbn [app lookupSymbol_range].
  - reflexivity.
  - destruct (String.eqb (Name x) name); [reflexivity | exact IH].
Qed.

(** ** Finding the C library *)

Lemma strstr_None (haystack needle : string) :
  strstr haystack needle = None
  <-> strings.Contains haystack needle = false.
Proof.
  unfold strstr, strings.Contains.
  destruct (strings.Index haystack needle); cbn [option_map];
    split; intros H; try reflexivity; discriminate H.
Qed.

Lemma strstr_Some (haystack needle : string) (rest : string) :
  strstr haystack needle = Some rest ->
  strings.Contains haystack needle = true.
Proof.
  unfold strstr, strings.Contains.
  destruct (strings.Index haystack needle); cbn [option_map];
    intros H; try reflexivity; discriminate H.
Qed.

Lemma find_libc_walk_found (pre post : list string) (str : string) :
  (forall x, In x pre -> strings.Contains x "libc.so" = false) ->
  strings.Contains str "libc.so" = true ->
  snd (find_libc_walk (pre ++ str :: post)) = Some str.
Proof.
  intros Hpre Hstr. induction pre as [|x pre IH]; cbn [app find_libc_walk].
  - destruct (strstr str "libc.so") eqn:E; [reflexivity|].
    apply strstr_None in E. congruence.
  - destruct (strstr x "libc.so") eqn:E.
    + apply strstr_Some in E. rewrite Hpre in E by now left.
      discriminate E.
    + apply IH. intros y Hy. apply Hpre. now right.
Qed.

Lemma find_libc_walk_Some (map : list string) (str : string) :
  snd (find_libc_walk map) = Some str ->
  exists pre post,
    map = pre ++ str :: post
    /\ (forall x, In x pre -> strings.Contains x "libc.so" = false)
    /\ strings.Contains str "libc.so" = true.
Proof.
  induction map as [|x l IH]; cbn [find_libc_walk]; [discriminate|].
  destruct (strstr x "libc.so") eqn:E.
  - intros [= <-]. exists [], l. split; [reflexivity|].
    split; [intros y [] | now apply strstr_Some in E].
  - intros H. destruct (IH H) as [pre [post [-> [Hpre Hstr]]]].
    exists (x :: pre), post. split; [reflexivity | split; [|exact Hstr]].
    intros y [<-|Hy]; [now apply strstr_None | now apply Hpre].
Qed.

Lemma find_libc_walk_None (map : list string) :
  snd (find_libc_walk map) = None ->
  forall x, In x map -> strings.Contains x "libc.so" = false.
Proof.
  induction map as [|x l IH]; cbn [find_libc_walk]; [intros _ y []|].
  destruct (strstr x "libc.so") eqn:E; [discriminate|].
  intros H y [<-|Hy]; [now apply strstr_None | now apply IH].
Qed.

(** X3. [findLibc] returns the name of the first loaded object, in link-map
    order, whose name contains libc.so, whatever else the name holds; it
    fails, always with the same error, exactly when [dlopen] or [dlinfo]
    fails or no loaded object has such a name. *)
Theorem findLibc_first_libc_object {K : Type} (env : Env K)
    (dl : dlopen_result) :
  C_find_libc env = snd (find_libc dl) ->
  (forall pre str post,
      dl = dlopen_handle (dlinfo_link_map (pre ++ str :: post)) ->
      (forall x, In x pre -> strings.Contains x "libc.so" = false) ->
      strings.Contains str "libc.so" = true ->
      findLibc env = Ok str)
  /\ (forall str,
         findLibc env = Ok str ->
         exists pre post,
           dl = dlopen_handle (dlinfo_link_map (pre ++ str :: post))
           /\ (forall x, In x pre -> strings.Contains x "libc.so" = false)
           /\ strings.Contains str "libc.so" = true)
  /\ (forall e,
         findLibc env = Err e ->
         e = errors_New "Could not find path to libc.so"
         /\ ((exists dlerror, dl = dlopen_NULL dlerror)
             \/ (exists dlerror, dl = dlopen_handle (dlinfo_fails dlerror))
             \/ exists map,
                  dl = dlopen_handle (dlinfo_link_map map)
                  /\ forall x, In x map ->
                               strings.Contains x "libc.so" = false)).
Proof.
  intros Henv. unfold findLibc. rewrite Henv. split; [|split].
  - intros pre str post -> Hpre Hstr. cbn [find_libc].
    now rewrite (find_libc_walk_found pre post str Hpre Hstr).
  - intros str H.
    destruct dl as [e0|[e0|map]]; cbn [find_libc snd] in H;
      try discriminate H.
    destruct (snd (find_libc_walk map)) as [str'|] eqn:E; [|discriminate H].
    injection H as <-.
    destruct (find_libc_walk_Some map str' E) as [pre [post [-> Hrest]]].
    now exists pre, post.
  - intros e H.
    destruct dl as [e0|[e0|map]]; cbn [find_libc snd] in H.
    + injection H as <-. split; [reflexivity | left; now exists e0].
    + injection H as <-. split; [reflexivity | right; left; now exists e0].
    + destruct (snd (find_libc_walk map)) eqn:E; [discriminate H|].
      injection H as <-. split; [reflexivity | right; right].
      exists map. split; [reflexivity | now apply find_libc_walk_None].
Qed.

Lemma findLibc_first_libc_object_witness :
  let env := counting_env libc_so [] (fun _ => None) None None in
  let pre := [""; "linux-vdso.so.1"; "/usr/lib/libdl.so.2"] in
  let str := "/lib/x86_64-linux-gnu/libc.so.6" in
  let post := ["/opt/musl/lib/libc.so"] in
  let dl := dlopen_handle (dlinfo_link_map (pre ++ str :: post)) in
  C_find_libc env = snd (find_libc dl)
  /\ (forall x, In x pre -> strings.Contains x "libc.so" = false)
  /\ strings.Contains str "libc.so" = true
  /\ findLibc env = Ok str.
Proof.
  intros env pre str post dl.
  assert (Hpre : forall x, In x pre -> strings.Contains x "libc.so" = false).
  { intros x [<-|[<-|[<-|[]]]]; reflexivity. }
  split; [reflexivity | split; [exact Hpre | split; [reflexivity|]]].
  exact (proj1 (findLibc_first_libc_object env dl eq_refl)
           pre str post eq_refl Hpre eq_refl).
Defined.

(** ** Replacing the first occurrence *)

Lemma drop_empty (j : nat) : strings.drop j "" = "".
Proof. now destruct j. Qed.

(** X4. [strings.Index] finds the first position at which [old] occurs, and
    the replacement is Go's [s[:i] + new + s[i+len(old):]] at that position
    [i]; when [old] occurs nowhere the string is returned as it is. *)
Theorem Replace1_cuts_at_first_occurrence (s old new : string) :
  (strings.Index s old = None ->
   strings.Replace1 s old new = s
   /\ forall j, String.prefix old (strings.drop j s) = false)
  /\ (forall i,
         strings.Index s old = Some i ->
         String.prefix old (strings.drop i s) = true
         /\ (forall j, (j < i)%nat ->
                       String.prefix old (strings.drop j s) = false)
         /\ strings.Replace1 s old new
            = (String.substring 0 i s ++ new
               ++ strings.drop (i + String.length old) s)%string).
Proof.
  induction s as [|c s [IHn IHs]];
    cbn [strings.Index strings.Replace1]; split.
  - destruct (String.prefix old "") eqn:E; [discriminate|]. intros _.
    split; [reflexivity|]. intros j. now rewrite drop_empty.
  - intros i. destruct (String.prefix old "") eqn:E; [|discriminate].
    intros [= <-]. split; [exact E | split; [intros j Hj; lia|]].
    reflexivity.
  - destruct (String.prefix old (String c s)) eqn:E; [discriminate|].
    destruct (strings.Index s old) as [i'|] eqn:Ei; [discriminate|].
    intros _. destruct (IHn eq_refl) as [Hr Hd]. split; [now rewrite Hr|].
    intros [|j]; [exact E | apply Hd].
  - intros i. destruct (String.prefix old (String c s)) eqn:E.
    + intros [= <-]. split; [exact E | split; [intros j Hj; lia|]].
      reflexivity.
    + destruct (strings.Index s old) as [i'|] eqn:Ei; [|discriminate].
      intros [= <-]. destruct (IHs i' eq_refl) as [Hp [Hlt Hr]].
      split; [exact Hp | split].
      * intros [|j] Hj; [exact E | apply Hlt; lia].
      * rewrite Hr. reflexivity.
Qed.

Lemma Replace1_cuts_at_first_occurrence_witness :
  strings.Index "uretprobe/uprobe/x" "uprobe/" = Some 10%nat
  /\ String.prefix "uprobe/" (strings.drop 10 "uretprobe/uprobe/x") = true
  /\ strings.Replace1 "uretprobe/uprobe/x" "uprobe/" "<>"
     = (String.substring 0 10 "uretprobe/uprobe/x" ++ "<>"
        ++ strings.drop (10 + String.length "uprobe/")
             "uretprobe/uprobe/x")%string
  /\ strings.Index "getaddrinfo" "uprobe/" = None
  /\ strings.Replace1 "getaddrinfo" "uprobe/" "" = "getaddrinfo".
Proof.
  destruct (Replace1_cuts_at_first_occurrence
              "uretprobe/uprobe/x" "uprobe/" "<>") as [_ Hs].
  destruct (Hs 10%nat eq_refl) as [Hp [_ Hr]].
  destruct (Replace1_cuts_at_first_occurrence "getaddrinfo" "uprobe/" "")
    as [Hn _].
  destruct (Hn eq_refl) as [Hu _].
  split; [reflexivity | split; [exact Hp | split; [exact Hr|]]].
  split; [reflexivity | exact Hu].
Defined.

(** X5. A probe name that contains neither prefix string is its own probed
    function: the loop looks such a probe up under its whole name. *)
Theorem probeFunction_of_other_names (name : string) :
  strings.Contains name "uretprobe/" = false ->
  strings.Contains name "uprobe/" = false ->
  probeFunction_of name = name
  /\ forall libc_elf,
       lookupSymbol libc_elf (probeFunction_of name)
       = lookupSymbol libc_elf name.
Proof.
  intros Hr Hu.
  assert (E : probeFunction_of name = name).
  { unfold probeFunction_of.
    rewrite (Replace1_no_occurrence name "uretprobe/")
      by now apply Contains_false.
    now apply Replace1_no_occurrence, Contains_false. }
  split; [exact E | intros libc_elf; now rewrite E].
Qed.

Lemma probeFunction_of_other_names_witness :
  strings.Contains "kprobe/tcp_v4_connect" "uretprobe/" = false
  /\ strings.Contains "kprobe/tcp_v4_connect" "uprobe/" = false
  /\ probeFunction_of "kprobe/tcp_v4_connect" = "kprobe/tcp_v4_connect".
Proof.
  split; [reflexivity | split; [reflexivity|]].
  exact (proj1 (probeFunction_of_other_names "kprobe/tcp_v4_connect"
                  eq_refl eq_refl)).
Defined.

(** ** What the attachment loop leaves behind *)

Lemma count_cons (p : effect -> bool) (e : effect) (es : list effect) :
  count p (e :: es) = (if p e then 1 else 0) + count p es.
Proof.
  unfold count; cbn [filter]. destruct (p e); cbn [List.length]; lia.
Qed.

Lemma count_nonneg (p : effect -> bool) (es : list effect) : 0 <= count p es.
Proof. unfold count. lia. Qed.

Lemma count_app (p : effect -> bool) (es1 es2 : list effect) :
  count p (es1 ++ es2) = count p es1 + count p es2.
Proof.
  unfold count. rewrite filter_app, length_app. lia.
Qed.

Section LoopInvariants.

Context {K : Type} (env : Env K) (libc_elf : elf_File) (libcFile : string).

(** X6. When the loop gets through all probes, every probe has left exactly
    one effect, an attach request or a warning, and the counter has grown by
    the number of attach requests, so by at most the number of probes. *)
Theorem attach_loop_counts_requests (us : list Uprobe) (n n1 : Z)
    (w w1 : World K) :
  attach_loop env libc_elf libcFile us n w = (Ok n1, w1) ->
  exists es,
    trace w1 = trace w ++ es
    /\ List.length es = List.length us
    /\ n1 = n + count is_AttachUprobe es
    /\ count is_AttachUprobe es + count is_log es
       = Z.of_nat (List.length us)
    /\ n <= n1 <= n + Z.of_nat (List.length us).
Proof.
  revert n w. induction us as [|u us IH]; intros n w H.
  - injection H as <- <-. exists []. rewrite app_nil_r.
    cbn [List.length]. unfold count; cbn. repeat split; lia.
  - destruct (lookupSymbol libc_elf (probeFunction_of (uprobe_Name u)))
      as [offset|err] eqn:E.
    + destruct (bpf_AttachUprobe env u libcFile offset (kern w))
        as [k [e|]] eqn:Ea.
      * rewrite (loop_rejected env libc_elf libcFile u us n w offset k e E Ea)
          in H. discriminate H.
      * rewrite (loop_attached env libc_elf libcFile u us n w offset k E Ea)
          in H.
        destruct (IH _ _ H) as [es [Ht [Hl [Hn [Hc Hb]]]]].
        cbn [trace] in Ht.
        exists (call_AttachUprobe u libcFile offset :: es).
        rewrite !count_cons. cbn [is_AttachUprobe is_log List.length].
        split; [now rewrite Ht, <- app_assoc|]. repeat split; lia.
    + rewrite (loop_missing env libc_elf libcFile u us n w err E) in H.
      destruct (IH _ _ H) as [es [Ht [Hl [Hn [Hc Hb]]]]].
      unfold says in Ht; cbn [trace] in Ht.
      exists (symbol_warning u err :: es).
      rewrite !count_cons.
      cbn [symbol_warning is_AttachUprobe is_log List.length].
      split; [now rewrite Ht, <- app_assoc|]. repeat split; lia.
Qed.

(** X7. The loop asks for an attachment only for a declared probe, at the
    path of the library and at the offset [lookupSymbol] found for the
    probed function of that probe. *)
Theorem attach_loop_requests_resolved_offsets (us : list Uprobe) (n : Z)
    (w : World K) :
  exists es,
    trace (snd (attach_loop env libc_elf libcFile us n w)) = trace w ++ es
    /\ forall u path offset,
         In (call_AttachUprobe u path offset) es ->
         In u us /\ path = libcFile
         /\ lookupSymbol libc_elf (probeFunction_of (uprobe_Name u))
            = Ok offset.
Proof.
  revert n w. induction us as [|u us IH]; intros n w.
  - exists []. cbn [attach_loop ret snd]. rewrite app_nil_r.
    split; [reflexivity | intros ? ? ? []].
  - destruct (lookupSymbol libc_elf (probeFunction_of (uprobe_Name u)))
      as [offset|err] eqn:E.
    + destruct (bpf_AttachUprobe env u libcFile offset (kern w))
        as [k [e|]] eqn:Ea.
      * rewrite (loop_rejected env libc_elf libcFile u us n w offset k e E Ea).
        eexists. split; [reflexivity|].
        intros u' path off [Hin|[Hin|[]]]; [|discriminate Hin].
        injection Hin as <- <- <-. split; [now left | now split].
      * rewrite (loop_attached env libc_elf libcFile u us n w offset k E Ea).
        destruct (IH (n + 1)
                    (mkWorld k (trace w ++ [call_AttachUprobe u libcFile
                                              offset])))
          as [es [Ht Hes]].
        exists (call_AttachUprobe u libcFile offset :: es).
        split; [rewrite Ht; cbn [trace]; now rewrite <- app_assoc|].
        intros u' path off [Hin|Hin].
        -- injection Hin as <- <- <-. split; [now left | now split].
        -- destruct (Hes u' path off Hin) as [Hu Hrest].
           split; [now right | exact Hrest].
    + rewrite (loop_missing env libc_elf libcFile u us n w err E).
      destruct (IH n (says w [symbol_warning u err])) as [es [Ht Hes]].
      exists (symbol_warning u err :: es).
      split; [rewrite Ht; unfold says; cbn [trace]; now rewrite <- app_assoc|].
      intros u' path off [Hin|Hin]; [discriminate Hin|].
      destruct (Hes u' path off Hin) as [Hu Hrest].
      split; [now right | exact Hrest].
Qed.

Lemma loop_error_from_rejection (us : list Uprobe) (n : Z)
    (w w1 : World K) (err : error) :
  attach_loop env libc_elf libcFile us n w = (Err err, w1) ->
  exists pre u post offset n0 w0,
    us = pre ++ u :: post
    /\ attach_loop env libc_elf libcFile pre n w = (Ok n0, w0)
    /\ lookupSymbol libc_elf (probeFunction_of (uprobe_Name u)) = Ok offset
    /\ snd (bpf_AttachUprobe env u libcFile offset (kern w0)) = Some err
    /\ trace w1
       = trace w0 ++ [call_AttachUprobe u libcFile offset; attach_error u err].
Proof.
  revert n w. induction us as [|u us IH]; intros n w H; [discriminate H|].
  destruct (lookupSymbol libc_elf (probeFunction_of (uprobe_Name u)))
    as [offset|e0] eqn:E.
  - destruct (bpf_AttachUprobe env u libcFile offset (kern w))
      as [k [e|]] eqn:Ea.
    + rewrite (loop_rejected env libc_elf libcFile u us n w offset k e E Ea)
        in H.
      injection H as <- <-. exists [], u, us, offset, n, w.
      split; [reflexivity | split; [reflexivity | split; [exact E|]]].
      rewrite Ea. now split.
    + rewrite (loop_attached env libc_elf libcFile u us n w offset k E Ea)
        in H.
      destruct (IH _ _ H) as [pre [u' [post [off [n0 [w0' Hall]]]]]].
      destruct Hall as [-> [Hpre Hrest]].
      exists (u :: pre), u', post, off, n0, w0'.
      split; [reflexivity | split; [|exact Hrest]].
      now rewrite (loop_attached env libc_elf libcFile u pre n w offset k E Ea).
  - rewrite (loop_missing env libc_elf libcFile u us n w e0 E) in H.
    destruct (IH _ _ H) as [pre [u' [post [off [n0 [w0' Hall]]]]]].
    destruct Hall as [-> [Hpre Hrest]].
    exists (u :: pre), u', post, off, n0, w0'.
    split; [reflexivity | split; [|exact Hrest]].
    now rewrite (loop_missing env libc_elf libcFile u pre n w e0 E).
Qed.

(** X8. An error of the loop always comes from a rejected attach request,
    never from a lookup: the loop got through the probes before some probe
    [u], resolved [u], and the kernel answered the request for [u] with that
    error; the request and its error line are the last two effects. *)
Theorem attach_loop_error_is_rejection (us : list Uprobe) (n : Z)
    (w w1 : World K) (err : error) :
  attach_loop env libc_elf libcFile us n w = (Err err, w1) ->
  exists pre u post offset n0 w0,
    us = pre ++ u :: post
    /\ attach_loop env libc_elf libcFile pre n w = (Ok n0, w0)
    /\ lookupSymbol libc_elf (probeFunction_of (uprobe_Name u)) = Ok offset
    /\ snd (bpf_AttachUprobe env u libcFile offset (kern w0)) = Some err
    /\ trace w1
       = trace w0 ++ [call_AttachUprobe u libcFile offset; attach_error u err].
Proof. apply loop_error_from_rejection. Qed.

End LoopInvariants.

Lemma attach_loop_counts_requests_witness :
  let env := counting_env libc_so [] (fun _ => None) None None in
  let us := [mkUprobe "uprobe/getaddrinfo"; mkUprobe "uprobe/res_query";
             mkUprobe "uretprobe/gethostbyname"] in
  let w1 := snd (attach_loop env libc_so "libc.so.6" us 0 w0) in
  attach_loop env libc_so "libc.so.6" us 0 w0 = (Ok 2, w1)
  /\ exists es,
       trace w1 = trace w0 ++ es
       /\ List.length es = List.length us
       /\ 2 = 0 + count is_AttachUprobe es
       /\ count is_AttachUprobe es + count is_log es
          = Z.of_nat (List.length us)
       /\ 0 <= 2 <= 0 + Z.of_nat (List.length us).
Proof.
  intros env us w1. split; [reflexivity|].
  exact (attach_loop_counts_requests env libc_so "libc.so.6" us 0 2 w0 w1
           eq_refl).
Defined.

Lemma attach_loop_requests_resolved_offsets_witness :
  let env := counting_env libc_so [] (fun _ => None) None None in
  let us := [mkUprobe "uprobe/res_query"; mkUprobe "uretprobe/gethostbyname"] in
  let u := mkUprobe "uretprobe/gethostbyname" in
  In (call_AttachUprobe u "libc.so.6" 0x5678)
     (trace (snd (attach_loop env libc_so "libc.so.6" us 0 w0)))
  /\ In u us
  /\ lookupSymbol libc_so (probeFunction_of (uprobe_Name u)) = Ok 0x5678.
Proof.
  intros env us u.
  assert (Hin : In (call_AttachUprobe u "libc.so.6" 0x5678)
                   (trace (snd (attach_loop env libc_so "libc.so.6" us 0
                                  w0)))).
  { right. now left. }
  split; [exact Hin|].
  destruct (attach_loop_requests_resolved_offsets env libc_so "libc.so.6"
              us 0 w0) as [es [Ht Hes]].
  rewrite Ht in Hin. cbn [w0 trace app] in Hin.
  destruct (Hes u "libc.so.6" 0x5678 Hin) as [Hu [_ Hl]].
  now split.
Defined.

Lemma attach_loop_error_is_rejection_witness :
  let env := counting_env libc_so []
               (fun u => if String.eqb (uprobe_Name u) "uretprobe/getaddrinfo"
                         then Some EINVAL else None)
               None None in
  let us := [mkUprobe "uprobe/getaddrinfo"; mkUprobe "uretprobe/getaddrinfo";
             mkUprobe "uprobe/gethostbyname"] in
  let w1 := snd (attach_loop env libc_so "libc.so.6" us 0 w0) in
  attach_loop env libc_so "libc.so.6" us 0 w0 = (Err EINVAL, w1)
  /\ exists pre u post offset n0 w0',
       us = pre ++ u :: post
       /\ attach_loop env libc_so "libc.so.6" pre 0 w0 = (Ok n0, w0')
       /\ lookupSymbol libc_so (probeFunction_of (uprobe_Name u)) = Ok offset
       /\ snd (bpf_AttachUprobe env u "libc.so.6" offset (kern w0'))
          = Some EINVAL
       /\ trace w1
          = trace w0' ++ [call_AttachUprobe u "libc.so.6" offset;
                          attach_error u EINVAL].
Proof.
  intros env us w1. split; [reflexivity|].
  exact (attach_loop_error_is_rejection env libc_so "libc.so.6" us 0 w0 w1
           EINVAL eq_refl).
Defined.

(** ** Every way a run can go *)

Section Runs.

Context {K : Type} (env : Env K).

Lemma run_load_failed (w : World K) (k0 : K) (err : error) :
  bpf_Load env (kern w) = (k0, Some err) ->
  DnsListenerEbpf env w
  = (Returned (Some err),
     mkWorld k0
       (trace w
        ++ [call_Load artifact;
            log ERROR
              "EBPF-DNS: Failed to load /etc/opensnitchd/opensnitch-dns.o: %v"
              [a_error err]])).
Proof.
  intros H. unfold DnsListenerEbpf, bind, emit, kernel, ret; cbn [kern trace].
  rewrite H; cbn [kern trace]. now rewrite <- app_assoc.
Qed.

Lemma run_findLibc_failed (w : World K) (k0 : K) (err : error) :
  bpf_Load env (kern w) = (k0, None) ->
  findLibc env = Err err ->
  DnsListenerEbpf env w
  = (Returned (Some err),
     mkWorld (bpf_Close env k0)
       (trace w
        ++ [call_Load artifact;
            log ERROR "EBPF-DNS: Failed to find libc.so: %v" [a_error err];
            call_Close])).
Proof.
  intros H Hl.
  unfold DnsListenerEbpf, bind at 1, emit at 1, bind at 1, kernel at 1.
  cbn [kern trace]. rewrite H. unfold bind at 1, loaded. rewrite Hl.
  unfold bind, emit, kernel_, ret; cbn [kern trace].
  now rewrite <- !app_assoc.
Qed.

Lemma run_Open_failed (w : World K) (k0 : K) (libcFile : string)
    (err : error) :
  bpf_Load env (kern w) = (k0, None) ->
  findLibc env = Ok libcFile ->
  elf_Open env libcFile = Err err ->
  DnsListenerEbpf env w
  = (Returned (Some err),
     mkWorld (bpf_Close env k0)
       (trace w
        ++ [call_Load artifact;
            log ERROR "EBPF-DNS: Failed to open %s: %v"
              [a_string libcFile; a_error err];
            call_Close])).
Proof.
  intros H Hl Ho.
  unfold DnsListenerEbpf, bind at 1, emit at 1, bind at 1, kernel at 1.
  cbn [kern trace]. rewrite H. unfold bind at 1, loaded. rewrite Hl, Ho.
  unfold bind, emit, kernel_, ret; cbn [kern trace].
  now rewrite <- !app_assoc.
Qed.

Lemma run_loop_failed (w w1 : World K) (k0 : K) (libcFile : string)
    (libc_elf : elf_File) (err : error) :
  bpf_Load env (kern w) = (k0, None) ->
  findLibc env = Ok libcFile ->
  elf_Open env libcFile = Ok libc_elf ->
  attach_loop env libc_elf libcFile (bpf_IterUprobes env k0) 0
    (mkWorld k0 (trace w ++ [call_Load artifact])) = (Err err, w1) ->
  DnsListenerEbpf env w
  = (Returned (Some err),
     mkWorld (bpf_Close env (kern w1)) (trace w1 ++ [call_Close])).
Proof.
  intros H Hl Ho Hloop.
  unfold DnsListenerEbpf, bind at 1, emit at 1, bind at 1, kernel at 1.
  cbn [kern trace]. rewrite H. unfold bind at 1, loaded. rewrite Hl, Ho.
  unfold bind at 1, ask at 1; cbn [kern trace].
  unfold bind at 1. rewrite Hloop.
  unfold bind, emit, kernel_, ret; cbn [kern trace]. reflexivity.
Qed.

End Runs.

Lemma loop_effects {K : Type} (env : Env K) (libc_elf : elf_File)
    (libcFile : string) (us : list Uprobe) (n : Z) (w : World K) :
  exists es,
    trace (snd (attach_loop env libc_elf libcFile us n w)) = trace w ++ es
    /\ Forall (fun e => is_loop_effect e = true) es
    /\ forall n1,
         fst (attach_loop env libc_elf libcFile us n w) = Ok n1 ->
         n1 = n + count is_AttachUprobe es.
Proof.
  revert n w. induction us as [|u us IH]; intros n w.
  - exists []. cbn [attach_loop ret snd fst]. rewrite app_nil_r.
    split; [reflexivity | split; [constructor|]].
    intros n1 [= <-]. unfold count; cbn. lia.
  - destruct (lookupSymbol libc_elf (probeFunction_of (uprobe_Name u)))
      as [offset|err] eqn:E.
    + destruct (bpf_AttachUprobe env u libcFile offset (kern w))
        as [k [e|]] eqn:Ea.
      * rewrite (loop_rejected env libc_elf libcFile u us n w offset k e E Ea).
        eexists. split; [reflexivity | split].
        -- repeat constructor.
        -- discriminate.
      * rewrite (loop_attached env libc_elf libcFile u us n w offset k E Ea).
        destruct (IH (n + 1)
                    (mkWorld k (trace w ++ [call_AttachUprobe u libcFile
                                              offset])))
          as [es [Ht [Hk Hn]]].
        exists (call_AttachUprobe u libcFile offset :: es).
        split; [rewrite Ht; cbn [trace]; now rewrite <- app_assoc|].
        split; [now constructor|].
        intros n1 H1. rewrite count_cons. cbn [is_AttachUprobe].
        rewrite (Hn n1 H1). lia.
    + rewrite (loop_missing env libc_elf libcFile u us n w err E).
      destruct (IH n (says w [symbol_warning u err])) as [es [Ht [Hk Hn]]].
      exists (symbol_warning u err :: es).
      split; [rewrite Ht; unfold says; cbn [trace]; now rewrite <- app_assoc|].
      split; [now constructor|].
      intros n1 H1. rewrite count_cons. cbn [symbol_warning is_AttachUprobe].
      rewrite (Hn n1 H1). lia.
Qed.

Lemma loop_effect_count_zero (p : effect -> bool) (es : list effect) :
  Forall (fun e => is_loop_effect e = true) es ->
  (forall e, p e = true -> is_loop_effect e = false) ->
  count p es = 0.
Proof.
  intros Hk Hp. induction Hk as [|e es He _ IH]; [reflexivity|].
  rewrite count_cons, IH. destruct (p e) eqn:E; [|reflexivity].
  rewrite (Hp e E) in He. discriminate He.
Qed.


(** All the runs: the load, then the effects of the loop, then one of six
    endings. *)
Lemma run_shape {K : Type} (env : Env K) (w : World K) :
  exists loop_es tail,
    trace (snd (DnsListenerEbpf env w))
    = trace w ++ call_Load artifact :: loop_es ++ tail
    /\ Forall (fun e => is_loop_effect e = true) loop_es
    /\ ((exists err l,
            snd (bpf_Load env (kern w)) = Some err
            /\ fst (DnsListenerEbpf env w) = Returned (Some err)
            /\ loop_es = [] /\ tail = [l] /\ is_log l = true)
        \/ (snd (bpf_Load env (kern w)) = None
            /\ ((exists err l,
                    fst (DnsListenerEbpf env w) = Returned (Some err)
                    /\ count is_AttachUprobe loop_es = 0
                    /\ tail = [l; call_Close] /\ is_log l = true)
                \/ (exists err,
                       fst (DnsListenerEbpf env w) = Returned (Some err)
                       /\ tail = [call_Close])
                \/ (exists err l,
                       fst (DnsListenerEbpf env w) = Returned (Some err)
                       /\ 1 <= count is_AttachUprobe loop_es
                       /\ tail = [call_InitPerfMap "events"; l; call_Close]
                       /\ is_log l = true)
                \/ (fst (DnsListenerEbpf env w) = Waiting
                    /\ os_sig env = None
                    /\ 1 <= count is_AttachUprobe loop_es
                    /\ tail = [call_InitPerfMap "events"; call_Notify;
                               go_consumer; call_PollStart])
                \/ (exists s,
                       fst (DnsListenerEbpf env w) = Returned None
                       /\ os_sig env = Some s
                       /\ 1 <= count is_AttachUprobe loop_es
                       /\ tail
                          = [call_InitPerfMap "events"; call_Notify;
                             go_consumer; call_PollStart; recv_sig s;
                             log INFO
                               "EBPF-DNS: Received signal: terminating ebpf dns hook."
                               [];
                             call_PollStop; call_Close])))).
Proof.
  destruct (bpf_Load env (kern w)) as [k0 [e|]] eqn:Hload.
  { rewrite (run_load_failed env w k0 e Hload).
    exists [], [log ERROR
                  "EBPF-DNS: Failed to load /etc/opensnitchd/opensnitch-dns.o: %v"
                  [a_error e]].
    split; [reflexivity | split; [constructor|]].
    left. exists e. eexists. repeat split; reflexivity. }
  destruct (findLibc env) as [libcFile|e] eqn:Hlibc.
  2:{ rewrite (run_findLibc_failed env w k0 e Hload Hlibc).
      exists []. eexists. split; [reflexivity | split; [constructor|]].
      right. split; [reflexivity|]. left. exists e. eexists.
      repeat split; reflexivity. }
  destruct (elf_Open env libcFile) as [libc_elf|e] eqn:Hopen.
  2:{ rewrite (run_Open_failed env w k0 libcFile e Hload Hlibc Hopen).
      exists []. eexists. split; [reflexivity | split; [constructor|]].
      right. split; [reflexivity|]. left. exists e. eexists.
      repeat split; reflexivity. }
  destruct (loop_effects env libc_elf libcFile (bpf_IterUprobes env k0) 0
              (mkWorld k0 (trace w ++ [call_Load artifact])))
    as [es [Ht [Hk Hn]]].
  destruct (attach_loop env libc_elf libcFile (bpf_IterUprobes env k0) 0
              (mkWorld k0 (trace w ++ [call_Load artifact])))
    as [[n|e] w1] eqn:Hloop; cbn [fst snd trace] in Ht, Hn.
  2:{ rewrite (run_loop_failed env w w1 k0 libcFile libc_elf e
                 Hload Hlibc Hopen Hloop).
      exists es, [call_Close]. cbn [snd fst trace].
      split; [rewrite Ht, <- !app_assoc; reflexivity | split; [exact Hk|]].
      right. split; [reflexivity|]. right. left. now exists e. }
  rewrite (run_after_attach env libc_elf libcFile w w1 k0 n
             Hload Hlibc Hopen Hloop).
  specialize (Hn n eq_refl). pose proof (count_nonneg is_AttachUprobe es).
  destruct (Z.eqb_spec n 0) as [Hz|Hnz].
  { exists es. eexists. cbn [snd fst trace].
    split; [rewrite Ht, <- !app_assoc; reflexivity | split; [exact Hk|]].
    right. split; [reflexivity|]. left. exists NoProbesAttached. eexists.
    repeat split; try reflexivity. lia. }
  destruct (bpf_InitPerfMap env (kern w1)) as [k2 [e|]] eqn:Hinit.
  { rewrite (poll_init_failed env w1 k2 e Hinit).
    exists es. eexists. cbn [snd fst trace].
    split; [rewrite Ht, <- !app_assoc; reflexivity | split; [exact Hk|]].
    right. split; [reflexivity|]. right. right. left. exists e. eexists.
    repeat split; try reflexivity. lia. }
  rewrite (poll_started env w1 k2 Hinit).
  destruct (os_sig env) as [s|].
  - exists es. eexists. cbn [snd fst trace].
    split; [rewrite Ht, <- !app_assoc; reflexivity | split; [exact Hk|]].
    right. split; [reflexivity|]. do 4 right. exists s.
    repeat split; try reflexivity. lia.
  - exists es. eexists. cbn [snd fst trace].
    split; [rewrite Ht, <- !app_assoc; reflexivity | split; [exact Hk|]].
    right. split; [reflexivity|]. do 3 right. left.
    repeat split; try reflexivity. lia.
Qed.

Lemma log_is_no_call (l : effect) :
  is_log l = true ->
  is_Close l = false /\ l <> call_PollStart /\ is_AttachUprobe l = false.
Proof. destruct l; cbn; intros H; try discriminate H; now repeat split. Qed.

(** X9. The deferred [m.Close()] runs exactly once, as the last effect, on
    every return that follows a successful load; it does not run when the
    load itself failed, nor while the listener waits for the signal. *)
Theorem artifact_closed_once_after_load {K : Type} (env : Env K)
    (w : World K) :
  exists es,
    trace (snd (DnsListenerEbpf env w)) = trace w ++ es
    /\ count is_Close es
       = match snd (bpf_Load env (kern w)), fst (DnsListenerEbpf env w) with
         | None, Returned _ => 1
         | _, _ => 0
         end
    /\ (count is_Close es = 1 -> exists es', es = es' ++ [call_Close]).
Proof.
  destruct (run_shape env w) as [loop_es [tail [Ht [Hk Hcases]]]].
  exists (call_Load artifact :: loop_es ++ tail). split; [exact Ht|].
  assert (Hz : count is_Close loop_es = 0).
  { apply loop_effect_count_zero; [exact Hk|]. now intros [ ]. }
  rewrite count_cons, count_app, Hz. cbn [is_Close].
  destruct Hcases as [[err [l [Hl [Hr [-> [-> Hlog]]]]]]|[Hl Hcases]].
  { rewrite Hl, count_cons.
    destruct (log_is_no_call l Hlog) as [-> _]. unfold count; cbn.
    split; [reflexivity | discriminate]. }
  rewrite Hl.
  destruct Hcases as [[err [l [Hr [_ [-> Hlog]]]]]
                     |[[err [Hr ->]]
                      |[[err [l [Hr [_ [-> Hlog]]]]]
                       |[[Hr [_ [_ ->]]]|[s [Hr [_ [_ ->]]]]]]]];
    rewrite Hr.
  - rewrite count_cons. destruct (log_is_no_call l Hlog) as [-> _].
    split; [reflexivity|]. intros _.
    exists (call_Load artifact :: loop_es ++ [l]).
    cbn [app]. now rewrite <- app_assoc.
  - split; [reflexivity|]. intros _.
    now exists (call_Load artifact :: loop_es).
  - rewrite !count_cons. destruct (log_is_no_call l Hlog) as [-> _].
    split; [reflexivity|]. intros _.
    exists (call_Load artifact :: loop_es ++ [call_InitPerfMap "events"; l]).
    cbn [app]. now rewrite <- app_assoc.
  - split; [reflexivity | discriminate].
  - split; [reflexivity|]. intros _.
    exists (call_Load artifact :: loop_es
            ++ [call_InitPerfMap "events"; call_Notify; go_consumer;
                call_PollStart; recv_sig s;
                log INFO
                  "EBPF-DNS: Received signal: terminating ebpf dns hook." [];
                call_PollStop]).
    cbn [app]. now rewrite <- app_assoc.
Qed.

Lemma artifact_closed_once_after_load_witness :
  let env := counting_env stripped_so [mkUprobe "uprobe/getaddrinfo"]
               (fun _ => None) None (Some os_Interrupt) in
  exists es,
    trace (snd (DnsListenerEbpf env w0)) = trace w0 ++ es
    /\ count is_Close es = 1
    /\ exists es', es = es' ++ [call_Close].
Proof.
  intros env.
  destruct (artifact_closed_once_after_load env w0) as [es [Ht [Hc Hlast]]].
  exists es. split; [exact Ht | split; [exact Hc | exact (Hlast Hc)]].
Defined.

(** X10. A run returns [nil] only after the signal: the load succeeded, the
    loop went through the probes with at least one attach request, and the
    run then initialised the perf map, registered for the signal, spawned the
    consumer, started polling, received the signal, stopped polling and
    closed the module, in this order and with nothing else. *)
Theorem nil_return_is_full_cycle {K : Type} (env : Env K) (w : World K) :
  fst (DnsListenerEbpf env w) = Returned None ->
  exists s loop_es,
    os_sig env = Some s
    /\ snd (bpf_Load env (kern w)) = None
    /\ Forall (fun e => is_loop_effect e = true) loop_es
    /\ 1 <= count is_AttachUprobe loop_es
    /\ trace (snd (DnsListenerEbpf env w))
       = trace w ++ call_Load artifact :: loop_es
         ++ [call_InitPerfMap "events"; call_Notify; go_consumer;
             call_PollStart; recv_sig s;
             log INFO "EBPF-DNS: Received signal: terminating ebpf dns hook."
               [];
             call_PollStop; call_Close].
Proof.
  intros Hnil.
  destruct (run_shape env w) as [loop_es [tail [Ht [Hk Hcases]]]].
  destruct Hcases as [[err [l [_ [Hr _]]]]|[Hl Hcases]];
    [rewrite Hr in Hnil; discriminate Hnil|].
  destruct Hcases as [[err [l [Hr _]]]
                     |[[err [Hr _]]
                      |[[err [l [Hr _]]]
                       |[[Hr _]|[s [Hr [Hs [Hc ->]]]]]]]];
    try (rewrite Hr in Hnil; discriminate Hnil).
  exists s, loop_es. now repeat split.
Qed.

Lemma nil_return_is_full_cycle_witness :
  let env := counting_env libc_so
               [mkUprobe "uprobe/getaddrinfo"; mkUprobe "uprobe/res_query"]
               (fun _ => None) None (Some os_Kill) in
  fst (DnsListenerEbpf env w0) = Returned None
  /\ exists s loop_es,
       os_sig env = Some s
       /\ snd (bpf_Load env (kern w0)) = None
       /\ Forall (fun e => is_loop_effect e = true) loop_es
       /\ 1 <= count is_AttachUprobe loop_es
       /\ trace (snd (DnsListenerEbpf env w0))
          = trace w0 ++ call_Load artifact :: loop_es
            ++ [call_InitPerfMap "events"; call_Notify; go_consumer;
                call_PollStart; recv_sig s;
                log INFO
                  "EBPF-DNS: Received signal: terminating ebpf dns hook." [];
                call_PollStop; call_Close].
Proof.
  intros env. split; [reflexivity|].
  exact (nil_return_is_full_cycle env w0 eq_refl).
Defined.



(** X12. An error returned by the listener is the error of the load, the
    fixed error of [findLibc], the error of [elf.Open], the error the kernel
    gave to an attach request for a resolved probe, the no-probes-attached
    error, or the error of the perf map initialisation. *)
Theorem returned_error_origin {K : Type} (env : Env K) (w : World K)
    (err : error) :
  fst (DnsListenerEbpf env w) = Returned (Some err) ->
  snd (bpf_Load env (kern w)) = Some err
  \/ (C_find_libc env = None
      /\ err = errors_New "Could not find path to libc.so")
  \/ (exists libcFile, findLibc env = Ok libcFile
                       /\ elf_Open env libcFile = Err err)
  \/ (exists libcFile libc_elf u offset k,
         findLibc env = Ok libcFile
         /\ elf_Open env libcFile = Ok libc_elf
         /\ lookupSymbol libc_elf (probeFunction_of (uprobe_Name u))
            = Ok offset
         /\ snd (bpf_AttachUprobe env u libcFile offset k) = Some err)
  \/ err = NoProbesAttached
  \/ (exists k, snd (bpf_InitPerfMap env k) = Some err).
Proof.
  destruct (bpf_Load env (kern w)) as [k0 [e|]] eqn:Hload.
  { rewrite (run_load_failed env w k0 e Hload). intros [= <-]. now left. }
  destruct (findLibc env) as [libcFile|e] eqn:Hlibc.
  2:{ rewrite (run_findLibc_failed env w k0 e Hload Hlibc). intros [= <-].
      right. left. unfold findLibc in Hlibc.
      destruct (C_find_libc env); [discriminate Hlibc|].
      injection Hlibc as <-. now split. }
  destruct (elf_Open env libcFile) as [libc_elf|e] eqn:Hopen.
  2:{ rewrite (run_Open_failed env w k0 libcFile e Hload Hlibc Hopen).
      intros [= <-]. right. right. left. now exists libcFile. }
  destruct (attach_loop env libc_elf libcFile (bpf_IterUprobes env k0) 0
              (mkWorld k0 (trace w ++ [call_Load artifact])))
    as [[n|e] w1] eqn:Hloop.
  2:{ rewrite (run_loop_failed env w w1 k0 libcFile libc_elf e
                 Hload Hlibc Hopen Hloop). intros [= <-].
      destruct (loop_error_from_rejection env libc_elf libcFile
                  _ _ _ _ _ Hloop)
        as [pre [u [post [offset [n0 [w0' [_ [_ [Hs [Ha _]]]]]]]]]].
      do 3 right. left. now exists libcFile, libc_elf, u, offset, (kern w0'). }
  rewrite (run_after_attach env libc_elf libcFile w w1 k0 n
             Hload Hlibc Hopen Hloop).
  destruct (n =? 0); [intros [= <-]; do 4 right; now left|].
  destruct (bpf_InitPerfMap env (kern w1)) as [k2 [e|]] eqn:Hinit.
  - rewrite (poll_init_failed env w1 k2 e Hinit). intros [= <-].
    do 5 right. exists (kern w1). now rewrite Hinit.
  - rewrite (poll_started env w1 k2 Hinit).
    destruct (os_sig env); discriminate.
Qed.

Lemma returned_error_origin_witness :
  let env := counting_env libc_so [mkUprobe "uprobe/getaddrinfo"]
               (fun _ => Some EINVAL) None None in
  fst (DnsListenerEbpf env w0) = Returned (Some EINVAL)
  /\ (snd (bpf_Load env (kern w0)) = Some EINVAL
      \/ (C_find_libc env = None
          /\ EINVAL = errors_New "Could not find path to libc.so")
      \/ (exists libcFile, findLibc env = Ok libcFile
                           /\ elf_Open env libcFile = Err EINVAL)
      \/ (exists libcFile libc_elf u offset k,
             findLibc env = Ok libcFile
             /\ elf_Open env libcFile = Ok libc_elf
             /\ lookupSymbol libc_elf (probeFunction_of (uprobe_Name u))
                = Ok offset
             /\ snd (bpf_AttachUprobe env u libcFile offset k) = Some EINVAL)
      \/ EINVAL = NoProbesAttached
      \/ (exists k, snd (bpf_InitPerfMap env k) = Some EINVAL)).
Proof.
  intros env. split; [reflexivity|].
  exact (returned_error_origin env w0 EINVAL eq_refl).
Defined.

(** ** Buffers of the wrong length *)

(** X13. A buffer shorter than 20 bytes, the empty buffer included, panics
    the consumer before it logs anything, and the buffers after it are never
    handled.  A buffer of 20 to 271 bytes is logged and skipped with the
    decode warning, and the consumer goes on with the next buffer. *)
Theorem consume_truncated_buffer {K : Type} (env : Env K)
    (data : list byte) (rest : list (list byte)) (w : World K) :
  (Z.of_nat (List.length data) < 20 ->
   consume env data w = (Panic "slice bounds out of range", w)
   /\ consumer env (data :: rest) w = (Panic "slice bounds out of range", w))
  /\ (20 <= Z.of_nat (List.length data) < 272 ->
      consume env data w
      = (Next, says w [lookup_debug data;
                       decode_warning io_ErrUnexpectedEOF])
      /\ consumer env (data :: rest) w
         = consumer env rest
             (says w [lookup_debug data;
                      decode_warning io_ErrUnexpectedEOF])).
Proof.
  split; intros Hlen.
  - assert (Hc : consume env data w
                 = (Panic "slice bounds out of range", w)).
    { unfold consume.
      destruct (Z.ltb_spec (Z.of_nat (List.length data)) 20); [|lia].
      reflexivity. }
    split; [exact Hc|]. cbn [consumer]. unfold bind at 1. now rewrite Hc.
  - assert (Hc : consume env data w
                 = (Next, says w [lookup_debug data;
                                  decode_warning io_ErrUnexpectedEOF])).
    { unfold consume, binary_Read.
      destruct (Z.ltb_spec (Z.of_nat (List.length data)) 20); [lia|].
      destruct (Z.ltb_spec (Z.of_nat (List.length data)) 272); [|lia].
      destruct data as [|b data]; [cbn [List.length] in Hlen; lia|].
      unfold bind, emit, ret, says; cbn [kern trace].
      now rewrite <- app_assoc. }
    split; [exact Hc|]. cbn [consumer]. unfold bind at 1. now rewrite Hc.
Qed.

Lemma consume_truncated_buffer_witness :
  let env := counting_env libc_so [] (fun _ => None) None None in
  let cut := firstn 100 example_com in
  Z.of_nat (List.length (@nil byte)) < 20
  /\ consumer env ([] :: [example_com]) w0
     = (Panic "slice bounds out of range", w0)
  /\ 20 <= Z.of_nat (List.length cut) < 272
  /\ consumer env (cut :: [example_com]) w0
     = consumer env [example_com]
         (says w0 [lookup_debug cut; decode_warning io_ErrUnexpectedEOF]).
Proof.
  intros env cut.
  assert (H0 : Z.of_nat (List.length (@nil byte)) < 20) by (cbn; lia).
  assert (H1 : 20 <= Z.of_nat (List.length cut) < 272)
    by (vm_compute; split; congruence).
  split; [exact H0 | split; [|split; [exact H1|]]].
  - exact (proj2 (proj1 (consume_truncated_buffer env [] [example_com] w0)
                    H0)).
  - exact (proj2 (proj2 (consume_truncated_buffer env cut [example_com] w0)
                    H1)).
Defined.

(** ** The layout of a record *)

Lemma firstn_exact {A : Type} (l r : list A) (n : nat) :
  List.length l = n -> firstn n (l ++ r) = l.
Proof.
  intros <-. rewrite firstn_app, firstn_all, Nat.sub_diag.
  cbn [firstn]. apply app_nil_r.
Qed.

Lemma skipn_exact {A : Type} (l r : list A) (n : nat) :
  List.length l = n -> skipn n (l ++ r) = r.
Proof.
  intros <-. rewrite skipn_app, skipn_all, Nat.sub_diag. reflexivity.
Qed.

(** X14. The decoder reads the family from bytes 0-3, the address from bytes
    4-19 and the hostname field from bytes 20-271, and nothing else: a
    buffer made of a 4-byte family, a 16-byte address, a 252-byte hostname
    field and any bytes after them decodes to exactly these three fields. *)
Theorem binary_Read_fields (family address hostname extra : list byte) :
  List.length family = 4%nat ->
  List.length address = 16%nat ->
  List.length hostname = 252%nat ->
  binary_Read (family ++ address ++ hostname ++ extra)
  = Ok (mkEvent (LittleEndian_Uint32 family) address hostname).
Proof.
  intros Hf Ha Hh. unfold binary_Read.
  destruct (family ++ address ++ hostname ++ extra) as [|b l] eqn:E.
  { apply (f_equal (@List.length byte)) in E.
    rewrite !length_app, Hf in E. discriminate E. }
  rewrite <- E.
  destruct (Z.ltb_spec
              (Z.of_nat (List.length (family ++ address ++ hostname ++ extra)))
              272) as [Hlt|_].
  { rewrite !length_app, Hf, Ha, Hh in Hlt. lia. }
  assert (H4 : skipn 4 (family ++ address ++ hostname ++ extra)
               = address ++ hostname ++ extra)
    by now apply skipn_exact.
  assert (H20 : skipn 20 (family ++ address ++ hostname ++ extra)
                = hostname ++ extra).
  { change 20%nat with (16 + 4)%nat. rewrite <- skipn_skipn, H4.
    now apply skipn_exact. }
  rewrite H4, H20.
  rewrite (firstn_exact family _ 4 Hf), (firstn_exact address _ 16 Ha).
  now rewrite (firstn_exact hostname _ 252 Hh).
Qed.

Lemma binary_Read_fields_witness :
  let family := [x0a; x00; x00; x00] in
  let address := repeat x00 15 ++ [x01] in
  let hostname := list_byte_of_string "localhost" ++ repeat x00 243 in
  List.length family = 4%nat
  /\ List.length address = 16%nat
  /\ List.length hostname = 252%nat
  /\ binary_Read (family ++ address ++ hostname ++ [xff; xff])
     = Ok (mkEvent (LittleEndian_Uint32 family) address hostname).
Proof.
  intros family address hostname.
  split; [reflexivity | split; [reflexivity | split; [reflexivity|]]].
  exact (binary_Read_fields family address hostname [xff; xff]
           eq_refl eq_refl eq_refl).
Defined.

(** ** The address family *)

Lemma byte_Z_range (b : byte) : 0 <= byte_Z b < 256.
Proof.
  unfold byte_Z. pose proof (Byte.to_N_bounded b). lia.
Qed.

Lemma byte_Z_inj (a b : byte) : byte_Z a = byte_Z b -> a = b.
Proof.
  unfold byte_Z. intros H. apply N2Z.inj in H.
  assert (E : Some a = Some b)
    by now rewrite <- (Byte.of_to_N a), <- (Byte.of_to_N b), H.
  now injection E.
Qed.

(** Bits that do not overlap add up. *)
Lemma lor_high (a d n : Z) :
  0 <= n -> 0 <= a < 2 ^ n -> Z.lor a (d * 2 ^ n) = a + d * 2 ^ n.
Proof.
  intros Hn Ha. rewrite <- Z.add_lor_land.
  assert (E : Z.land a (d * 2 ^ n) = 0).
  { apply Z.bits_inj'. intros m Hm.
    rewrite Z.land_spec, Z.bits_0.
    destruct (Z.lt_ge_cases m n) as [Hlt|Hge].
    - rewrite Z.mul_pow2_bits_low by exact Hlt. apply andb_false_r.
    - rewrite <- (Z.mod_small a (2 ^ n)) by exact Ha.
      now rewrite Z.mod_pow2_bits_high by lia. }
  rewrite E. lia.
Qed.

Lemma LittleEndian_Uint32_sum (b0 b1 b2 b3 : byte) :
  LittleEndian_Uint32 [b0; b1; b2; b3]
  = byte_Z b0 + 256 * byte_Z b1 + 65536 * byte_Z b2 + 16777216 * byte_Z b3.
Proof.
  unfold LittleEndian_Uint32; cbn [nth].
  pose proof (byte_Z_range b0). pose proof (byte_Z_range b1).
  pose proof (byte_Z_range b2). pose proof (byte_Z_range b3).
  rewrite !Z.shiftl_mul_pow2 by lia.
  rewrite (lor_high (byte_Z b2 * 2 ^ 16) (byte_Z b3) 24) by lia.
  replace (byte_Z b2 * 2 ^ 16 + byte_Z b3 * 2 ^ 24)
    with ((byte_Z b2 + byte_Z b3 * 2 ^ 8) * 2 ^ 16) by lia.
  rewrite (lor_high (byte_Z b1 * 2 ^ 8) _ 16) by lia.
  replace (byte_Z b1 * 2 ^ 8 + (byte_Z b2 + byte_Z b3 * 2 ^ 8) * 2 ^ 16)
    with ((byte_Z b1 + byte_Z b2 * 2 ^ 8 + byte_Z b3 * 2 ^ 16) * 2 ^ 8)
    by lia.
  rewrite (lor_high (byte_Z b0) _ 8) by lia.
  lia.
Qed.

(** X15. The family of a decoded record is the little-endian value of the
    first four bytes of the buffer, a number below 2^32; it is 2, the value
    that selects the 4-byte address, exactly when these bytes are
    02 00 00 00. *)
Theorem AddrType_is_little_endian (data : list byte)
    (event : nameLookupEvent) :
  binary_Read data = Ok event ->
  AddrType event
  = byte_Z (nth 0 data x00) + 256 * byte_Z (nth 1 data x00)
    + 65536 * byte_Z (nth 2 data x00) + 16777216 * byte_Z (nth 3 data x00)
  /\ 0 <= AddrType event < 2 ^ 32
  /\ (AddrType event = 2 <-> firstn 4 data = [x02; x00; x00; x00]).
Proof.
  intros Hread. destruct (binary_Read_Ok data event Hread) as [Hlen ->].
  destruct data as [|b0 [|b1 [|b2 [|b3 rest]]]];
    try (cbn [List.length] in Hlen; lia).
  cbn [AddrType firstn nth]. rewrite LittleEndian_Uint32_sum.
  pose proof (byte_Z_range b0). pose proof (byte_Z_range b1).
  pose proof (byte_Z_range b2). pose proof (byte_Z_range b3).
  split; [reflexivity | split; [lia|]]. split.
  - intros Hfam.
    assert (E0 : byte_Z b0 = byte_Z x02) by (change (byte_Z x02) with 2; lia).
    assert (E1 : byte_Z b1 = byte_Z x00) by (change (byte_Z x00) with 0; lia).
    assert (E2 : byte_Z b2 = byte_Z x00) by (change (byte_Z x00) with 0; lia).
    assert (E3 : byte_Z b3 = byte_Z x00) by (change (byte_Z x00) with 0; lia).
    apply byte_Z_inj in E0, E1, E2, E3. now subst.
  - intros [= -> -> -> ->]. reflexivity.
Qed.

Lemma AddrType_is_little_endian_witness :
  let data := record [x0a; x01; x00; x00] (repeat xff 16) "ipv6.example" x00 in
  let event := mkEvent 266 (repeat xff 16)
                 (list_byte_of_string "ipv6.example" ++ repeat x00 240) in
  binary_Read data = Ok event
  /\ AddrType event = 10 + 256 * 1 + 65536 * 0 + 16777216 * 0
  /\ 0 <= AddrType event < 2 ^ 32
  /\ firstn 4 data <> [x02; x00; x00; x00]
  /\ AddrType event <> 2.
Proof.
  intros data event.
  destruct (AddrType_is_little_endian data event eq_refl) as [Hs [Hr Hiff]].
  assert (Hn : firstn 4 data <> [x02; x00; x00; x00]) by discriminate.
  split; [reflexivity | split; [exact Hs | split; [exact Hr|]]].
  split; [exact Hn | intros H2; apply Hn, Hiff, H2].
Defined.

(** ** The address width, read off the buffer *)

Lemma family_bytes (data : list byte) (event : nameLookupEvent) :
  binary_Read data = Ok event ->
  (AddrType event = 2 <-> firstn 4 data = [x02; x00; x00; x00]).
Proof.
  intros Hread. destruct (binary_Read_Ok data event Hread) as [Hlen ->].
  destruct data as [|b0 [|b1 [|b2 [|b3 rest]]]];
    try (cbn [List.length] in Hlen; lia).
  cbn [AddrType firstn]. rewrite LittleEndian_Uint32_sum.
  pose proof (byte_Z_range b0). pose proof (byte_Z_range b1).
  pose proof (byte_Z_range b2). pose proof (byte_Z_range b3).
  split.
  - intros Hfam.
    assert (E0 : byte_Z b0 = byte_Z x02) by (change (byte_Z x02) with 2; lia).
    assert (E1 : byte_Z b1 = byte_Z x00) by (change (byte_Z x00) with 0; lia).
    assert (E2 : byte_Z b2 = byte_Z x00) by (change (byte_Z x00) with 0; lia).
    assert (E3 : byte_Z b3 = byte_Z x00) by (change (byte_Z x00) with 0; lia).
    apply byte_Z_inj in E0, E1, E2, E3. now subst.
  - intros [= -> -> -> ->]. reflexivity.
Qed.

(** C3. For a buffer that decodes, the address handed to the sink depends on
    the family bytes of the buffer: when bytes 0-3 are 02 00 00 00 (family
    2, little-endian) every call of the sink carries the text of bytes 4-7
    alone, the first 4 of the 16 address bytes, whatever bytes 8-19 hold;
    when bytes 0-3 are anything else it carries the text of all 16 address
    bytes 4-19.  The record is handed to the sink when its hostname field
    holds a zero byte. *)
Theorem address_width_follows_family {K : Type} (env : Env K)
    (data : list byte) (event : nameLookupEvent) (w : World K) :
  binary_Read data = Ok event ->
  (AddrType event = 2 <-> firstn 4 data = [x02; x00; x00; x00])
  /\ Ip event = firstn 16 (skipn 4 data)
  /\ List.length (Ip event) = 16%nat
  /\ (firstn 4 data = [x02; x00; x00; x00] ->
      event_ip event = firstn 4 (skipn 4 data)
      /\ List.length (event_ip event) = 4%nat
      /\ forall addr host,
           In (call_Track addr host)
              (trace (snd (consume env data (mkWorld (kern w) [])))) ->
           addr = IP_String env (firstn 4 (skipn 4 data)))
  /\ (firstn 4 data <> [x02; x00; x00; x00] ->
      event_ip event = firstn 16 (skipn 4 data)
      /\ List.length (event_ip event) = 16%nat
      /\ forall addr host,
           In (call_Track addr host)
              (trace (snd (consume env data (mkWorld (kern w) [])))) ->
           addr = IP_String env (firstn 16 (skipn 4 data)))
  /\ (In x00 (Host event) ->
      exists host,
        In (call_Track (IP_String env (event_ip event)) host)
           (trace (snd (consume env data w)))).
Proof.
  intros Hread.
  pose proof (family_bytes data event Hread) as Hfam.
  destruct (event_ip_by_AddrType env data event w Hread)
    as [H16 [H2 [Hn2 [Hall Hex]]]].
  destruct (binary_Read_Ok data event Hread) as [_ Hev].
  assert (Hip : Ip event = firstn 16 (skipn 4 data)) by now subst event.
  split; [exact Hfam | split; [exact Hip | split; [exact H16|]]].
  split; [|split; [|exact Hex]].
  - intros Hb. destruct (H2 (proj2 Hfam Hb)) as [_ [E Hlen]].
    split; [exact E | split; [exact Hlen|]].
    intros addr host Hin. rewrite <- E. exact (Hall addr host Hin).
  - intros Hb.
    assert (Hne : AddrType event <> 2)
      by (intros H; apply Hb, Hfam, H).
    destruct (Hn2 Hne) as [_ [E Hlen]].
    split; [exact E | split; [exact Hlen|]].
    intros addr host Hin. rewrite <- E. exact (Hall addr host Hin).
Qed.

Lemma address_width_follows_family_witness :
  let env := counting_env libc_so [] (fun _ => None) None None in
  let event4 := mkEvent 2 ([xc0; xa8; x01; x01] ++ repeat x00 12)
                  (list_byte_of_string "example.com" ++ repeat x00 241) in
  let data6 := record [x0a; x00; x00; x00]
                 ([x20; x01; x0d; xb8] ++ repeat x00 11 ++ [x01])
                 "ipv6.example" x00 in
  let event6 := mkEvent 10 ([x20; x01; x0d; xb8] ++ repeat x00 11 ++ [x01])
                  (list_byte_of_string "ipv6.example" ++ repeat x00 240) in
  (binary_Read example_com = Ok event4
   /\ firstn 4 example_com = [x02; x00; x00; x00]
   /\ event_ip event4 = [xc0; xa8; x01; x01]
   /\ In (call_Track "192.168.1.1" "example.com")
         (trace (snd (consume env example_com (mkWorld (kern w0) []))))
   /\ "192.168.1.1" = IP_String env (firstn 4 (skipn 4 example_com)))
  /\ (binary_Read data6 = Ok event6
      /\ firstn 4 data6 <> [x02; x00; x00; x00]
      /\ event_ip event6 = [x20; x01; x0d; xb8] ++ repeat x00 11 ++ [x01]
      /\ In (call_Track "32.1.13.184.0.0.0.0.0.0.0.0.0.0.0.1" "ipv6.example")
            (trace (snd (consume env data6 (mkWorld (kern w0) []))))
      /\ "32.1.13.184.0.0.0.0.0.0.0.0.0.0.0.1"
         = IP_String env (firstn 16 (skipn 4 data6))).
Proof.
  intros env event4 data6 event6.
  destruct (address_width_follows_family env example_com event4 w0 eq_refl)
    as [_ [_ [_ [H4 _]]]].
  destruct (address_width_follows_family env data6 event6 w0 eq_refl)
    as [_ [_ [_ [_ [H6 _]]]]].
  assert (Hb6 : firstn 4 data6 <> [x02; x00; x00; x00]) by discriminate.
  destruct (H4 eq_refl) as [E4 [_ Hall4]].
  destruct (H6 Hb6) as [E6 [_ Hall6]].
  assert (Hin4 : In (call_Track "192.168.1.1" "example.com")
                    (trace (snd (consume env example_com
                                   (mkWorld (kern w0) []))))).
  { right. right. now left. }
  assert (Hin6 : In (call_Track "32.1.13.184.0.0.0.0.0.0.0.0.0.0.0.1"
                       "ipv6.example")
                    (trace (snd (consume env data6 (mkWorld (kern w0) []))))).
  { right. right. now left. }
  split.
  - split; [reflexivity | split; [reflexivity | split; [exact E4|]]].
    split; [exact Hin4 | exact (Hall4 _ _ Hin4)].
  - split; [reflexivity | split; [exact Hb6 | split; [exact E6|]]].
    split; [exact Hin6 | exact (Hall6 _ _ Hin6)].
Defined.

(** ** What reaches the sink *)

Lemma length_string_of_list_byte (b : list byte) :
  String.length (string_of_list_byte b) = List.length b.
Proof.
  induction b as [|x b IH]; [reflexivity|].
  change (string_of_list_byte (x :: b))
    with (String (ascii_of_byte x) (string_of_list_byte b)).
  cbn [String.length List.length]. now rewrite IH.
Qed.

Lemma consume_undecodable {K : Type} (env : Env K) (data : list byte)
    (w : World K) (err : error) :
  binary_Read data = Err err ->
  forall addr host, ~ In (call_Track addr host)
                         (trace (snd (consume env data (mkWorld (kern w) [])))).
Proof.
  intros Hread addr host. unfold consume.
  destruct (Z.of_nat (List.length data) <? 20); [intros []|].
  unfold bind at 1, emit at 1. rewrite Hread.
  unfold bind, emit, ret; cbn [snd trace app].
  intros [H|[H|[]]]; discriminate H.
Qed.

(** X16. A hostname handed to the sink is a proper prefix of the hostname
    field of the decoded record: the field goes on with a zero byte right
    after it, the hostname holds no zero byte itself and is at most 251
    bytes long; the address handed over with it is the text of the address
    of that record. *)
Theorem tracked_hostname_is_terminated_prefix {K : Type} (env : Env K)
    (data : list byte) (w : World K) (addr host : string) :
  In (call_Track addr host)
     (trace (snd (consume env data (mkWorld (kern w) [])))) ->
  exists event post,
    binary_Read data = Ok event
    /\ Host event = list_byte_of_string host ++ x00 :: post
    /\ ~ In x00 (list_byte_of_string host)
    /\ (String.length host <= 251)%nat
    /\ addr = IP_String env (event_ip event).
Proof.
  intros Hin. destruct (binary_Read data) as [event|err] eqn:Hread.
  2:{ now apply (consume_undecodable env data w err Hread) in Hin. }
  destruct (in_dec Byte.byte_eq_dec x00 (Host event)) as [Hz|Hz].
  2:{ rewrite (consume_panics env data event _ Hread Hz) in Hin.
      cbn [snd says trace app] in Hin.
      destruct Hin as [H|[]]; discriminate H. }
  destruct (first_occurrence (Host event) x00 Hz) as [pre [post [Hh Hpre]]].
  rewrite (consume_tracks env data event pre post _ Hread Hh Hpre) in Hin.
  cbn [snd says trace app] in Hin.
  destruct Hin as [H|[H|[H|[]]]]; try discriminate H.
  injection H as <- <-. exists event, post.
  rewrite list_byte_of_string_of_list_byte, length_string_of_list_byte.
  split; [reflexivity | split; [exact Hh | split; [exact Hpre|]]].
  split; [|reflexivity].
  destruct (binary_Read_Ok data event Hread) as [Hlen Hev].
  assert (H252 : List.length (Host event) = 252%nat).
  { rewrite Hev. cbn [Host]. rewrite length_firstn, length_skipn. lia. }
  rewrite Hh, length_app in H252. cbn [List.length] in H252. lia.
Qed.

Lemma tracked_hostname_is_terminated_prefix_witness :
  let env := counting_env libc_so [] (fun _ => None) None None in
  In (call_Track "192.168.1.1" "example.com")
     (trace (snd (consume env example_com (mkWorld (kern w0) []))))
  /\ exists event post,
       binary_Read example_com = Ok event
       /\ Host event = list_byte_of_string "example.com" ++ x00 :: post
       /\ ~ In x00 (list_byte_of_string "example.com")
       /\ (String.length "example.com" <= 251)%nat
       /\ "192.168.1.1" = IP_String env (event_ip event).
Proof.
  intros env.
  assert (Hin : In (call_Track "192.168.1.1" "example.com")
                   (trace (snd (consume env example_com
                                  (mkWorld (kern w0) []))))).
  { right. right. now left. }
  split; [exact Hin|].
  exact (tracked_hostname_is_terminated_prefix env example_com w0
           "192.168.1.1" "example.com" Hin).
Defined.

(** ** The consumer over many buffers *)

Section ConsumerRuns.

Context {K : Type} (env : Env K).

(** X17. The consumer handles the buffers in the order they arrive: on
    [l1 ++ l2] it does what it does on [l1] and, unless that ended in a
    panic, goes on with [l2] from there; after a panic no later buffer has
    any effect. *)
Theorem consumer_in_arrival_order (l1 l2 : list (list byte)) (w : World K) :
  consumer env (l1 ++ l2) w
  = match consumer env l1 w with
    | (Next, w1) => consumer env l2 w1
    | (Panic text, w1) => (Panic text, w1)
    end.
Proof.
  revert w. induction l1 as [|data l1 IH]; intros w.
  - reflexivity.
  - cbn [app consumer]. unfold bind.
    destruct (consume env data w) as [[|text] w1]; [apply IH | reflexivity].
Qed.

(** One turn adds effects to the trace, among them at most one call of the
    sink, and exactly one when the record decodes and its hostname field
    holds a zero byte. *)
Lemma consume_effects (data : list byte) (w : World K) :
  exists es,
    snd (consume env data w) = says w es
    /\ 0 <= count is_Track es <= 1
    /\ ((exists event, binary_Read data = Ok event /\ In x00 (Host event)) ->
        fst (consume env data w) = Next /\ count is_Track es = 1).
Proof.
  destruct (binary_Read data) as [event|err] eqn:Hread.
  - destruct (in_dec Byte.byte_eq_dec x00 (Host event)) as [Hz|Hz].
    + destruct (first_occurrence (Host event) x00 Hz)
        as [pre [post [Hh Hpre]]].
      rewrite (consume_tracks env data event pre post w Hread Hh Hpre).
      eexists. split; [reflexivity|]. unfold count; cbn.
      split; [lia | intros _; now split].
    + rewrite (consume_panics env data event w Hread Hz).
      eexists. split; [reflexivity|]. unfold count; cbn.
      split; [lia|]. intros [ev [[= <-] Hin]]. contradiction.
  - unfold consume.
    destruct (Z.of_nat (List.length data) <? 20).
    + exists []. unfold says, ret; cbn [snd]. rewrite app_nil_r.
      split; [now destruct w|]. unfold count; cbn.
      split; [lia | intros [ev [H _]]; discriminate H].
    + unfold bind at 1, emit at 1. rewrite Hread.
      exists [lookup_debug data; decode_warning err].
      unfold bind, emit, ret, says; cbn [snd kern trace].
      rewrite <- app_assoc. split; [reflexivity|]. unfold count; cbn.
      split; [lia | intros [ev [H _]]; discriminate H].
Qed.

(** X18. The consumer calls the sink at most once per buffer it received,
    and exactly once per buffer, without a panic, when every buffer decodes
    and has a zero byte in its hostname field. *)
Theorem consumer_tracks_once_per_record (buffers : list (list byte))
    (w : World K) :
  exists es,
    snd (consumer env buffers w) = says w es
    /\ 0 <= count is_Track es <= Z.of_nat (List.length buffers)
    /\ ((forall data, In data buffers ->
                      exists event, binary_Read data = Ok event
                                    /\ In x00 (Host event)) ->
        fst (consumer env buffers w) = Next
        /\ count is_Track es = Z.of_nat (List.length buffers)).
Proof.
  revert w. induction buffers as [|data buffers IH]; intros w.
  - exists []. unfold says; cbn [consumer ret snd fst]. rewrite app_nil_r.
    split; [now destruct w|]. unfold count; cbn. split; [lia | now split].
  - destruct (consume_effects data w) as [es1 [Hs1 [Hc1 Hok1]]].
    cbn [consumer]. unfold bind.
    destruct (consume env data w) as [[|text] w1] eqn:Hc;
      cbn [fst snd] in Hs1, Hok1; subst w1.
    + destruct (IH (says w es1)) as [es2 [Hs2 [Hc2 Hok2]]].
      exists (es1 ++ es2). rewrite Hs2. unfold says; cbn [kern trace].
      rewrite <- app_assoc, count_app. cbn [List.length].
      split; [reflexivity | split; [lia|]].
      intros Hall.
      destruct (Hok1 (Hall data (or_introl eq_refl))) as [_ E1].
      destruct (Hok2 (fun d Hd => Hall d (or_intror Hd))) as [Hn E2].
      split; [exact Hn | lia].
    + exists es1. cbn [snd fst List.length]. split; [reflexivity|].
      split; [lia|]. intros Hall.
      destruct (Hok1 (Hall data (or_introl eq_refl))) as [Hn _].
      discriminate Hn.
Qed.

End ConsumerRuns.

Lemma has_zero_byte (b : list byte) :
  existsb (Byte.eqb x00) b = true -> In x00 b.
Proof.
  intros H. apply existsb_exists in H. destruct H as [x [Hin Hx]].
  apply Byte.byte_dec_bl in Hx. now subst x.
Qed.

Lemma consumer_tracks_once_per_record_witness :
  let env := counting_env libc_so [] (fun _ => None) None None in
  let buffers := [example_com; example_com ++ [xff]] in
  (forall data, In data buffers ->
                exists event, binary_Read data = Ok event
                              /\ In x00 (Host event))
  /\ exists es,
       snd (consumer env buffers w0) = says w0 es
       /\ fst (consumer env buffers w0) = Next
       /\ count is_Track es = 2.
Proof.
  intros env buffers.
  assert (Hall : forall data, In data buffers ->
                   exists event, binary_Read data = Ok event
                                 /\ In x00 (Host event)).
  { intros data [<-|[<-|[]]]; eexists; (split; [reflexivity|]);
      apply has_zero_byte; vm_compute; reflexivity. }
  split; [exact Hall|].
  destruct (consumer_tracks_once_per_record env buffers w0)
    as [es [Hs [_ Hok]]].
  destruct (Hok Hall) as [Hn Hc].
  exists es. split; [exact Hs | split; [exact Hn | exact Hc]].
Defined.

(** ** A module none of whose probes resolves *)

Lemma loop_all_missing {K : Type} (env : Env K) (libc_elf : elf_File)
    (libcFile : string) (us : list Uprobe) (n : Z) (w : World K) :
  (forall u, In u us ->
             exists e, lookupSymbol libc_elf (probeFunction_of (uprobe_Name u))
                       = Err e) ->
  exists es,
    attach_loop env libc_elf libcFile us n w = (Ok n, says w es)
    /\ Forall (fun e => is_log e = true) es
    /\ List.length es = List.length us.
Proof.
  revert w. induction us as [|u us IH]; intros w Hall.
  - exists []. unfold says; cbn [attach_loop ret]. rewrite app_nil_r.
    split; [now destruct w | split; [constructor | reflexivity]].
  - destruct (Hall u (or_introl eq_refl)) as [e He].
    rewrite (loop_missing env libc_elf libcFile u us n w e He).
    destruct (IH (says w [symbol_warning u e])
                (fun u' Hu' => Hall u' (or_intror Hu')))
      as [es [Hl [Hk Hlen]]].
    exists (symbol_warning u e :: es). rewrite Hl.
    unfold says; cbn [kern trace List.length]. rewrite <- app_assoc.
    split; [reflexivity | split; [now constructor | now rewrite Hlen]].
Qed.

(** X19. When the module loads and the library opens but no declared probe
    resolves, which includes a module that declares no probe at all, the
    run only logs, returns the no-probes-attached error and closes the
    module: the kernel is asked for no attachment and no perf map, and sees
    nothing between the load and the close. *)
Theorem unresolvable_module_is_fatal {K : Type} (env : Env K)
    (libc_elf : elf_File) (libcFile : string) (w : World K) (k0 : K) :
  bpf_Load env (kern w) = (k0, None) ->
  findLibc env = Ok libcFile ->
  elf_Open env libcFile = Ok libc_elf ->
  (forall u, In u (bpf_IterUprobes env k0) ->
             exists e, lookupSymbol libc_elf (probeFunction_of (uprobe_Name u))
                       = Err e) ->
  exists logs,
    DnsListenerEbpf env w
    = (Returned (Some NoProbesAttached),
       mkWorld (bpf_Close env k0)
         (trace w ++ call_Load artifact :: logs ++ [call_Close]))
    /\ Forall (fun e => is_log e = true) logs
    /\ List.length logs = S (List.length (bpf_IterUprobes env k0)).
Proof.
  intros Hload Hlibc Hopen Hall.
  destruct (loop_all_missing env libc_elf libcFile (bpf_IterUprobes env k0) 0
              (mkWorld k0 (trace w ++ [call_Load artifact])) Hall)
    as [es [Hloop [Hk Hlen]]].
  rewrite (run_after_attach env libc_elf libcFile w _ k0 0
             Hload Hlibc Hopen Hloop).
  change (0 =? 0) with true. cbv iota.
  exists (es ++ [log WARNING
                   "EBPF-DNS: Failed to find symbols for uprobes." []]).
  unfold says; cbn [kern trace]. rewrite <- !app_assoc. cbn [app].
  split; [reflexivity | split].
  - apply Forall_app. split; [exact Hk | now repeat constructor].
  - rewrite length_app. cbn [List.length]. lia.
Qed.

Lemma unresolvable_module_is_fatal_witness :
  let us := [mkUprobe "uprobe/res_query"] in
  let env := counting_env libc_so us (fun _ => None) None
               (Some os_Interrupt) in
  (forall u, In u (bpf_IterUprobes env O) ->
             exists e, lookupSymbol libc_so (probeFunction_of (uprobe_Name u))
                       = Err e)
  /\ exists logs,
       DnsListenerEbpf env w0
       = (Returned (Some NoProbesAttached),
          mkWorld (bpf_Close env O)
            (trace w0 ++ call_Load artifact :: logs ++ [call_Close]))
       /\ Forall (fun e => is_log e = true) logs
       /\ List.length logs = S (List.length (bpf_IterUprobes env O)).
Proof.
  intros us env.
  assert (Hall : forall u, In u (bpf_IterUprobes env O) ->
                   exists e,
                     lookupSymbol libc_so (probeFunction_of (uprobe_Name u))
                     = Err e).
  { intros u [<-|[]]. eexists. reflexivity. }
  split; [exact Hall|].
  exact (unresolvable_module_is_fatal env libc_so
           "/lib/x86_64-linux-gnu/libc.so.6" w0 O
           eq_refl eq_refl eq_refl Hall).
Defined.
